(** * NgeBaju-BE: order lifecycle and stock adjustment

    A shallow embedding of [src/controllers/orderController.js] together with
    the route table of [src/routes/orderRoutes.js] and the [authorize]
    middleware of [src/middleware/roleMiddleware.js].  The second half of the
    file adds the [authenticate] middleware in front of the routes and the
    page window computed by the two listing handlers; the last part adds the
    handlers of [src/controllers/cartController.js].

    Every handler of the controller is an [async (req, res)] function that
    talks to a hosted relational store and answers with one JSON response.
    Here a handler is a pure function from the request and the store before
    the request to the response and the store after it.

    Conventions.
    - Numbers (ids, quantities, prices, stock counters) are JavaScript numbers
      holding integers; they are modelled by [Z].
    - A table with a primary key is a [gmap] from the key to the row
      ([products] by [product_id], [product_sizes] by [(product_id, size)],
      [orders] by [order_id]); [order_items] and [cart_items] are lists of
      rows.
    - A store call can fail; which calls fail is described by a [faults]
      record, both for the calls whose [error] the handler inspects and for
      the compensating delete, whose result it throws away.
    - The stock updates of [createOrder] and [cancelOrder] hand a query
      builder to the store where the new value of the counter is expected;
      see [update_product_stock]. *)

From stdpp Require Import gmap strings list fin_maps.
From Stdlib Require Decimal DecimalFacts DecimalPos DecimalZ.

Local Open Scope string_scope.
Local Open Scope list_scope.
Local Open Scope Z_scope.

(** ** Rows of the store *)

Record product := mk_product {
  name  : string;
  price : Z;
  stock : Z
}.

Record order := mk_order {
  user_id     : Z;
  total_price : Z;
  status      : string
}.

Record order_item := mk_order_item {
  oi_order_id   : Z;
  oi_product_id : Z;
  oi_size       : option string;
  oi_quantity   : Z;
  oi_price      : Z
}.

Record store := mk_store {
  products      : gmap Z product;
  product_sizes : gmap (Z * string) Z;      (* (product_id, size) -> stock *)
  orders        : gmap Z order;
  order_items   : list order_item;
  next_order_id : Z                         (* the key the next insert gets *)
}.

(** Which of the inspected store calls answer with an [error].  The two
    lookups made once per line item can fail for some keys and not for
    others. *)
Record faults := mk_faults {
  products_select_fails      : Z -> bool;
  product_sizes_select_fails : Z -> string -> bool;
  orders_select_fails        : bool;
  orders_insert_fails        : bool;
  orders_update_fails        : bool;
  order_items_insert_fails   : bool;
  order_items_select_fails   : bool;
  orders_delete_fails        : bool      (* the compensating delete *)
}.

Definition reliable : faults :=
  mk_faults (fun _ => false) (fun _ _ => false) false false false false false false.

(** ** Requests and responses *)

(** [req.user], as set by the [authenticate] middleware. *)
Record user := mk_user {
  u_user_id : Z;
  role      : string
}.

(** One element of [req.body.items].  [size] is [None] when the item has no
    [size] field and [Some s] when the field is the string [s]; any other
    value in that field, [null] included, is turned down by the rule
    [body('items.*.size').optional().isString()] of the route and is not
    represented.  [ri_price] stands for a price the client may have put into
    the JSON of the item. *)
Record req_item := mk_req_item {
  product_id : Z;
  size       : option string;
  quantity   : Z;
  ri_price   : option Z
}.

(** The element pushed on [verifiedItems] by [createOrder]. *)
Record verified_item := mk_verified_item {
  vi_product_id : Z;
  vi_size       : option string;
  vi_quantity   : Z;
  vi_price      : Z
}.

(** The JSON bodies the order handlers send, one constructor per literal in
    the source. *)
Inductive body :=
  | ValidationErrors                                (* errors: errors.array() *)
  | ProductNotFound (pid : Z)                       (* Produk dengan ID .. tidak ditemukan *)
  | SizeNotFound (sz pname : string)                (* Ukuran .. untuk produk .. tidak ditemukan *)
  | InsufficientSizeStock (pname sz : string)       (* Stok tidak cukup untuk produk .. ukuran .. *)
  | InsufficientStock (pname : string)              (* Stok tidak cukup untuk produk .. *)
  | OrderInsertFailed                               (* Server error saat membuat order *)
  | OrderItemsInsertFailed                          (* Server error saat menambahkan item order *)
  | OrderCreated (oid total : Z)                    (* Order berhasil dibuat *)
  | OrderNotFound                                   (* Order tidak ditemukan *)
  | InvalidTransition (from to : string)            (* Tidak dapat mengubah status dari .. ke .. *)
  | StatusUpdateFailed                              (* Server error saat mengupdate status order *)
  | StatusUpdated (o : order)                       (* Status order berhasil diupdate *)
  | NoAccess                                        (* Anda tidak memiliki akses untuk order ini *)
  | NotCancellable (st : string)                    (* Order dengan status .. tidak dapat dibatalkan *)
  | CancelFailed                                    (* Server error saat membatalkan order *)
  | OrderCancelled (o : order)                      (* Order berhasil dibatalkan *)
  | OrderFetchFailed                                (* Server error saat mengambil order *)
  | OrderItemsFetchFailed                           (* Server error saat mengambil item order *)
  | OrderFound (o : order) (items : list order_item)
  | Unauthorized                                    (* Unauthorized *)
  | Forbidden                                       (* Forbidden: Anda tidak memiliki akses .. *)
  | ServerError.                                    (* Server error (the catch block) *)

(** [res.status(code).json(body)] *)
Definition response : Type := Z * body.

Definition http_status (r : response) : Z := r.1.

(** ** JavaScript helpers *)

(** Truthiness of [item.size]: [undefined], [null] and the empty string are
    falsy. *)
Definition truthy (s : option string) : bool :=
  match s with
  | None => false
  | Some s => negb (String.eqb s "")
  end.

(** [item.size || null] *)
Definition size_or_null (s : option string) : option string :=
  if truthy s then s else None.

(** The string behind a truthy size. *)
Definition size_label (s : option string) : string := default "" s.

(** [Array.prototype.includes] on an array of strings. *)
Definition includes (l : list string) (x : string) : bool :=
  existsb (String.eqb x) l.

(** ** Store primitives *)

(** [.from(products).select(..).eq(product_id, pid).single()]: the row, or
    nothing when the call fails or no row has the key. *)
Definition select_product (f : faults) (st : store) (pid : Z) : option product :=
  if products_select_fails f pid then None else products st !! pid.

(** [.from(product_sizes).select(..).eq(product_id, pid).eq(size, s).single()] *)
Definition select_size (f : faults) (st : store) (pid : Z) (s : string) : option Z :=
  if product_sizes_select_fails f pid s then None else product_sizes st !! (pid, s).

(** [.from(orders).select(..).eq(order_id, id).single()] *)
Definition select_order (f : faults) (st : store) (id : Z) : option order :=
  if orders_select_fails f then None else orders st !! id.

(** [.from(order_items).select(..).eq(order_id, id)] *)
Definition items_of_order (st : store) (id : Z) : list order_item :=
  filter (fun oi => oi_order_id oi = id) (order_items st).

(** What a handler hands to [.update({ stock: ... })] as the new value of
    the counter: a number, as [updateProduct] does with the [stock] of its
    request, or the query builder that [supabase.rpc(fn, { x })] returns.
    The order handlers build it with
    [supabase.rpc('decrement', { x: item.quantity })] and
    [supabase.rpc('increment', { x: item.quantity })] and pass it on as it
    is: the call is not awaited, so the procedure is not run, and neither the
    row nor its current stock is given to it. *)
Inductive stock_value :=
  | StockNumber (n : Z)
  | StockRpc (fn : string) (x : Z).

Definition set_stock (n : Z) (p : product) : product :=
  mk_product (name p) (price p) n.

(** [.from(products).update({ stock: v }).eq(product_id, pid)]: a number
    becomes the stock of the row with that id, if there is one; a query
    builder is no value for the counter, the store writes nothing and the
    row keeps its stock.  The handlers discard the result of the call. *)
Definition update_product_stock (v : stock_value) (pid : Z) (st : store) : store :=
  match v with
  | StockNumber n =>
      mk_store (alter (set_stock n) pid (products st)) (product_sizes st)
               (orders st) (order_items st) (next_order_id st)
  | StockRpc _ _ => st
  end.

(** [.from(product_sizes).update({ stock: v }).eq(product_id, pid).eq(size, s)] *)
Definition update_size_stock (v : stock_value) (pid : Z) (s : string) (st : store)
  : store :=
  match v with
  | StockNumber n =>
      mk_store (products st) (alter (fun _ => n) (pid, s) (product_sizes st))
               (orders st) (order_items st) (next_order_id st)
  | StockRpc _ _ => st
  end.

Definition set_orders (m : gmap Z order) (st : store) : store :=
  mk_store (products st) (product_sizes st) m (order_items st) (next_order_id st).

Definition set_status (s : string) (o : order) : order :=
  mk_order (user_id o) (total_price o) s.

(** ** Stock adjustment (orderController.js, lines 402-418 and 579-597) *)

(** One turn of the loop [for (const item of verifiedItems)] that closes
    [createOrder]. *)
Definition reserve_item (item : verified_item) (st : store) : store :=
  if truthy (vi_size item)
  then update_size_stock (StockRpc "decrement" (vi_quantity item))
         (vi_product_id item) (size_label (vi_size item)) st
  else update_product_stock (StockRpc "decrement" (vi_quantity item))
         (vi_product_id item) st.

Definition reserve (items : list verified_item) (st : store) : store :=
  fold_left (fun s item => reserve_item item s) items st.

(** One turn of the loop [for (const item of orderItems)] of [cancelOrder]. *)
Definition release_item (item : order_item) (st : store) : store :=
  if truthy (oi_size item)
  then update_size_stock (StockRpc "increment" (oi_quantity item))
         (oi_product_id item) (size_label (oi_size item)) st
  else update_product_stock (StockRpc "increment" (oi_quantity item))
         (oi_product_id item) st.

Definition release (items : list order_item) (st : store) : store :=
  fold_left (fun s item => release_item item s) items st.

(** ** createOrder *)

(** [orderValidation] of orderRoutes.js: a non-empty array whose elements
    carry an integer [product_id >= 1] and an integer [quantity >= 1].  The
    fourth rule, that a [size] field holds a string, is met by every
    [req_item]. *)
Definition orderValidation (items : list req_item) : bool :=
  negb (Nat.eqb (length items) 0)
  && forallb (fun it => (1 <=? product_id it) && (1 <=? quantity it)) items.

(** The body of the verification loop (lines 296-353) for one item: either
    the response the handler returns, or the element pushed on
    [verifiedItems]. *)
Definition verify_item (f : faults) (st : store) (item : req_item)
  : response + verified_item :=
  match select_product f st (product_id item) with
  | None => inl (400, ProductNotFound (product_id item))
  | Some prod =>
      let ok := inr (mk_verified_item (product_id item) (size_or_null (size item))
                                      (quantity item) (price prod)) in
      if truthy (size item) then
        match select_size f st (product_id item) (size_label (size item)) with
        | None => inl (400, SizeNotFound (size_label (size item)) (name prod))
        | Some size_stock =>
            if size_stock <? quantity item
            then inl (400, InsufficientSizeStock (name prod) (size_label (size item)))
            else ok
        end
      else
        if stock prod <? quantity item
        then inl (400, InsufficientStock (name prod))
        else ok
  end.

(** The loop itself, threading [totalPrice] and [verifiedItems]. *)
Fixpoint verify_items (f : faults) (st : store) (items : list req_item)
    (totalPrice : Z) (verifiedItems : list verified_item)
  : response + (Z * list verified_item) :=
  match items with
  | [] => inr (totalPrice, verifiedItems)
  | item :: rest =>
      match verify_item f st item with
      | inl r => inl r
      | inr v =>
          verify_items f st rest
            (totalPrice + vi_price v * vi_quantity v) (verifiedItems ++ [v])
      end
  end.

(** [verifiedItems.map(item => ({ order_id: newOrder.order_id, ... }))] *)
Definition to_order_item (oid : Z) (v : verified_item) : order_item :=
  mk_order_item oid (vi_product_id v) (vi_size v) (vi_quantity v) (vi_price v).

Definition createOrder (f : faults) (u : user) (items : list req_item) (st : store)
  : response * store :=
  if negb (orderValidation items) then ((400, ValidationErrors), st) else
  match verify_items f st items 0 [] with
  | inl r => (r, st)
  | inr (totalPrice, verifiedItems) =>
      if orders_insert_fails f then ((500, OrderInsertFailed), st) else
      let oid := next_order_id st in
      let st1 := mk_store (products st) (product_sizes st)
                   (<[oid := mk_order (u_user_id u) totalPrice "pending"]> (orders st))
                   (order_items st) (oid + 1) in
      if order_items_insert_fails f
      then ((500, OrderItemsInsertFailed),
            (* try to delete the order; the result of the call is not looked at *)
            if orders_delete_fails f then st1
            else set_orders (delete oid (orders st1)) st1)
      else
        let st2 := mk_store (products st1) (product_sizes st1) (orders st1)
                     (order_items st1 ++ map (to_order_item oid) verifiedItems)
                     (next_order_id st1) in
        ((201, OrderCreated oid totalPrice), reserve verifiedItems st2)
  end.

(** ** updateOrderStatus *)

Definition all_statuses : list string :=
  ["pending"; "processing"; "shipped"; "delivered";
   "completed"; "cancelled"; "returned"; "refunded"].

(** [statusValidation] of orderRoutes.js *)
Definition statusValidation (s : string) : bool := includes all_statuses s.

(** The object literal [validStatusTransitions] read at a key; a key the
    literal does not have gives [undefined]. *)
Definition validStatusTransitions (s : string) : option (list string) :=
  if String.eqb s "pending" then Some ["processing"; "cancelled"]
  else if String.eqb s "processing" then Some ["shipped"; "cancelled"]
  else if String.eqb s "shipped" then Some ["delivered"; "returned"]
  else if String.eqb s "delivered" then Some ["completed"; "returned"]
  else if String.eqb s "returned" then Some ["refunded"]
  else if String.eqb s "cancelled" then Some []
  else if String.eqb s "completed" then Some []
  else if String.eqb s "refunded" then Some []
  else None.

Definition updateOrderStatus (f : faults) (new_status : string) (id : Z) (st : store)
  : response * store :=
  if negb (statusValidation new_status) then ((400, ValidationErrors), st) else
  match select_order f st id with
  | None => ((404, OrderNotFound), st)
  | Some orderExists =>
      match validStatusTransitions (status orderExists) with
      | None => ((500, ServerError), st)      (* undefined.includes: TypeError, caught *)
      | Some allowed =>
          if negb (includes allowed new_status)
          then ((400, InvalidTransition (status orderExists) new_status), st)
          else if orders_update_fails f then ((500, StatusUpdateFailed), st)
          else ((200, StatusUpdated (set_status new_status orderExists)),
                set_orders (alter (set_status new_status) id (orders st)) st)
      end
  end.

(** ** cancelOrder *)

Definition cancelOrder (f : faults) (u : user) (id : Z) (st : store)
  : response * store :=
  match select_order f st id with
  | None => ((404, OrderNotFound), st)
  | Some o =>
      if negb (String.eqb (role u) "admin") && negb (user_id o =? u_user_id u)
      then ((403, NoAccess), st)
      else if negb (String.eqb (status o) "pending")
              && negb (String.eqb (status o) "processing")
      then ((400, NotCancellable (status o)), st)
      else if orders_update_fails f then ((500, CancelFailed), st)
      else
        let st1 := set_orders (alter (set_status "cancelled") id (orders st)) st in
        ((200, OrderCancelled (set_status "cancelled" o)),
         if order_items_select_fails f then st1
         else release (items_of_order st1 id) st1)
  end.

(** ** getOrderById *)

(** The query of lines 198-210: the row with the given id, narrowed to the
    caller's own rows unless the caller is an admin. *)
Definition scoped_order (u : user) (id : Z) (st : store) : option order :=
  match orders st !! id with
  | Some o =>
      if negb (String.eqb (role u) "admin") && negb (user_id o =? u_user_id u)
      then None else Some o
  | None => None
  end.

Definition getOrderById (f : faults) (u : user) (id : Z) (st : store)
  : response * store :=
  if orders_select_fails f then ((500, OrderFetchFailed), st) else
  match scoped_order u id st with
  | None => ((404, OrderNotFound), st)          (* error.code === PGRST116 *)
  | Some o =>
      if order_items_select_fails f then ((500, OrderItemsFetchFailed), st)
      else
        let orderItems := items_of_order st id in
        (* item.products.product_images throws when the joined product is null *)
        if forallb (fun oi => bool_decide (is_Some (products st !! oi_product_id oi)))
                   orderItems
        then ((200, OrderFound o orderItems), st)
        else ((500, ServerError), st)
  end.

(** ** Routes (orderRoutes.js) *)

(** [authorize(roles)] of roleMiddleware.js: [None] stands for [next()]. *)
Definition authorize (roles : list string) (u : option user) : option response :=
  match u with
  | None => Some (401, Unauthorized)
  | Some u =>
      if negb (Nat.eqb (length roles) 0) && negb (includes roles (role u))
      then Some (403, Forbidden)
      else None
  end.

(** [router.put('/:id/status', authenticate, authorize(['admin']),
    statusValidation, updateOrderStatus)] for an authenticated caller. *)
Definition put_order_status (f : faults) (u : user) (new_status : string)
    (id : Z) (st : store) : response * store :=
  match authorize ["admin"] (Some u) with
  | Some r => (r, st)
  | None => updateOrderStatus f new_status id st
  end.

(** * Notions used to state the properties *)

(** The transition table of section 4.1 of the specification, one
    constructor per arrow. *)
Inductive spec_transition : string -> string -> Prop :=
  | tr_pending_processing   : spec_transition "pending" "processing"
  | tr_pending_cancelled    : spec_transition "pending" "cancelled"
  | tr_processing_shipped   : spec_transition "processing" "shipped"
  | tr_processing_cancelled : spec_transition "processing" "cancelled"
  | tr_shipped_delivered    : spec_transition "shipped" "delivered"
  | tr_shipped_returned     : spec_transition "shipped" "returned"
  | tr_delivered_completed  : spec_transition "delivered" "completed"
  | tr_delivered_returned   : spec_transition "delivered" "returned"
  | tr_returned_refunded    : spec_transition "returned" "refunded".

(** What the guard of [updateOrderStatus] computes for a pair of statuses. *)
Definition allowed (s t : string) : bool :=
  match validStatusTransitions s with
  | Some l => includes l t
  | None => false
  end.

(** The price the catalog holds for a product when the request arrives. *)
Definition catalog_price (st : store) (pid : Z) : Z :=
  from_option price 0 (products st !! pid).

(** Sum over the line items of catalog price times requested quantity. *)
Definition order_total (st : store) (items : list req_item) : Z :=
  foldr (fun it acc => catalog_price st (product_id it) * quantity it + acc) 0 items.

(** The order item a request item is expected to be persisted as. *)
Definition expected_order_item (st : store) (oid : Z) (it : req_item) : order_item :=
  mk_order_item oid (product_id it) (size_or_null (size it)) (quantity it)
                (catalog_price st (product_id it)).

(** A request item without the price the client may have attached. *)
Definition without_client_price (it : req_item) : req_item :=
  mk_req_item (product_id it) (size it) (quantity it) None.

(** The counter a line item is checked against: the per-size row when the
    item names a size, the general stock of the product otherwise. *)
Definition located_stock (st : store) (it : req_item) : option Z :=
  if truthy (size it)
  then product_sizes st !! (product_id it, size_label (size it))
  else stock <$> products st !! product_id it.

Definition exceeds_stock (st : store) (it : req_item) : Prop :=
  exists s, located_stock st it = Some s /\ s < quantity it.

Definition is_insufficient_stock (b : body) : bool :=
  match b with
  | InsufficientStock _ | InsufficientSizeStock _ _ => true
  | _ => false
  end.

(** Every stock counter, general or per-size, is non-negative. *)
Definition stock_nonneg (st : store) : Prop :=
  map_Forall (fun _ p => 0 <= stock p) (products st)
  /\ map_Forall (fun _ s => 0 <= s) (product_sizes st).

(** ** Sample data *)

Definition alice : user := mk_user 7 "customer".
Definition bob   : user := mk_user 8 "customer".
Definition root  : user := mk_user 1 "admin".

(** A catalog of two products, the second one also stocked in size M, and no
    order yet. *)
Definition shop : store :=
  mk_store {[ 1 := mk_product "kaos" 100 5; 2 := mk_product "celana" 250 3 ]}
           {[ (2, "M") := 2 ]} ∅ [] 1.

(** The shop after alice ordered three pieces of product 1. *)
Definition shop_after_order : store :=
  (createOrder reliable alice [mk_req_item 1 None 3 None] shop).2.

(** The same shop with the counter of product 1 set to two, by an update
    that carries a number as the one of [updateProduct] does: alice's order
    of three pieces is pending and two pieces are left on the shelf. *)
Definition shop_reserved : store :=
  update_product_stock (StockNumber 2) 1 shop_after_order.

(** The same order once an admin moved it to [processing] and on to
    [shipped]. *)
Definition shop_after_shipping : store :=
  (updateOrderStatus reliable "shipped" 1
     (updateOrderStatus reliable "processing" 1 shop_after_order).2).2.

(** * Further notions *)

(** The element the verification loop pushes for a request item that
    passes. *)
Definition verified_of (st : store) (it : req_item) : verified_item :=
  mk_verified_item (product_id it) (size_or_null (size it)) (quantity it)
                   (catalog_price st (product_id it)).

(** A request item with its [size] field left out when that field holds the
    empty string. *)
Definition without_empty_size (it : req_item) : req_item :=
  mk_req_item (product_id it)
              (match size it with Some EmptyString => None | s => s end)
              (quantity it) (ri_price it).

(** Every stored order item is for at least one piece. *)
Definition items_positive (st : store) : Prop :=
  Forall (fun oi => 1 <= oi_quantity oi) (order_items st).

(** How far along its life an order is: every arrow of
    [validStatusTransitions] leads to a higher rank. *)
Definition status_rank (s : string) : Z :=
  if String.eqb s "pending" then 0
  else if String.eqb s "processing" then 1
  else if String.eqb s "shipped" then 2
  else if String.eqb s "delivered" then 3
  else if String.eqb s "returned" then 4
  else 5.

(** A request that can change the status of an order: the status route, or
    the cancel route, each with the faults of the store during that
    request. *)
Inductive order_op :=
  | OpUpdateStatus (f : faults) (new_status : string)
  | OpCancel (f : faults) (u : user).

Definition run_op (id : Z) (op : order_op) (st : store) : response * store :=
  match op with
  | OpUpdateStatus f t => updateOrderStatus f t id st
  | OpCancel f u => cancelOrder f u id st
  end.

(** Requests handled one after the other, each to completion. *)
Fixpoint run_ops (id : Z) (ops : list order_op) (st : store)
  : list response * store :=
  match ops with
  | [] => ([], st)
  | op :: rest =>
      let '(r, st1) := run_op id op st in
      let '(rs, st2) := run_ops id rest st1 in
      (r :: rs, st2)
  end.

(** The number of 200 answers among a list of answers. *)
Definition accepted (rs : list response) : nat :=
  length (filter (fun r => http_status r = 200) rs).

(** [authorize(roles)] as it can be called: without an argument (the default
    is the empty array), with one role as a string (wrapped into an array by
    the middleware), or with an array of roles. *)
Inductive roles_arg :=
  | NoRoles
  | OneRole (r : string)
  | Roles (rs : list string).

Definition authorize_with (a : roles_arg) (u : option user) : option response :=
  authorize (match a with
             | NoRoles => []
             | OneRole r => [r]
             | Roles rs => rs
             end) u.

(** ** The routes of orderRoutes.js behind [authenticate] *)

(** The second piece of [authHeader.split(' ')] for a header that starts with
    [Bearer ] and a space: what follows that space, up to the next space. *)
Fixpoint until_space (s : string) : string :=
  match s with
  | EmptyString => EmptyString
  | String c rest =>
      if Ascii.eqb c Ascii.Space then EmptyString else String c (until_space rest)
  end.

Fixpoint drop_chars (n : nat) (s : string) : string :=
  match n, s with
  | O, _ => s
  | S n, String _ rest => drop_chars n rest
  | S _, EmptyString => EmptyString
  end.

(** [authHeader.startsWith('Bearer ')] and, when it does,
    [authHeader.split(' ')[1]]. *)
Definition bearer_token (authHeader : string) : option string :=
  if String.prefix "Bearer " authHeader
  then Some (until_space (drop_chars 7 authHeader))
  else None.

(** The three ways [authenticate] answers 401. *)
Inductive auth_failure :=
  | TokenMissing        (* Akses ditolak. Token tidak ditemukan *)
  | TokenInvalid        (* the message of the error thrown by verifyToken *)
  | UserUnknown.        (* User tidak ditemukan atau tidak valid *)

Section Authenticate.

(** [verifyToken] of jwtUtils.js checks the signature and the expiry with the
    jsonwebtoken library: nothing when it throws, otherwise the [id] found in
    the decoded payload, if the payload has one. *)
Variable verifyToken : string -> option (option Z).

(** [authenticate]: the [users] table is read by the id of the token, here as
    a map from [user_id] to the [role] column; [req.user] is the row read. *)
Definition authenticate (users : gmap Z string) (users_select_fails : bool)
    (authorization : option string) : auth_failure + user :=
  match authorization with
  | None => inl TokenMissing
  | Some authHeader =>
      match bearer_token authHeader with
      | None => inl TokenMissing
      | Some token =>
          match verifyToken token with
          | None => inl TokenInvalid
          | Some decoded_id =>
              if users_select_fails then inl UserUnknown else
              match decoded_id with
              | None => inl UserUnknown
              | Some uid =>
                  match users !! uid with
                  | None => inl UserUnknown
                  | Some r => inr (mk_user uid r)
                  end
              end
          end
      end
  end.

End Authenticate.

(** A request to one of the four routes whose handlers are modelled. *)
Inductive order_request :=
  | GetOrder (id : Z)                          (* GET /:id *)
  | PostOrder (items : list req_item)          (* POST / *)
  | PostCancel (id : Z)                        (* POST /:id/cancel *)
  | PutStatus (id : Z) (new_status : string).  (* PUT /:id/status *)

(** What runs after [authenticate] let the request through. *)
Definition dispatch (f : faults) (u : user) (req : order_request) (st : store)
  : response * store :=
  match req with
  | GetOrder id => getOrderById f u id st
  | PostOrder items => createOrder f u items st
  | PostCancel id => cancelOrder f u id st
  | PutStatus id new_status => put_order_status f u new_status id st
  end.

Definition order_routes (verifyToken : string -> option (option Z))
    (users : gmap Z string) (users_select_fails : bool) (f : faults)
    (authorization : option string) (req : order_request) (st : store)
  : (auth_failure + response) * store :=
  match authenticate verifyToken users users_select_fails authorization with
  | inl e => (inl e, st)
  | inr u => let '(r, st') := dispatch f u req st in (inr r, st')
  end.

(** The order ids handed out so far are below [next_order_id]: no order and
    no order item carries an id at or above it. *)
Definition ids_below_next (st : store) : Prop :=
  (forall j, next_order_id st <= j -> orders st !! j = None)
  /\ Forall (fun oi => oi_order_id oi < next_order_id st) (order_items st).

(** Sample data: a token checker that knows the tokens of two users, and a
    users table in which the second of them is an admin. *)
Definition sample_verifyToken (token : string) : option (option Z) :=
  if String.eqb token "t-alice" then Some (Some 7)
  else if String.eqb token "t-root" then Some (Some 1)
  else None.

Definition sample_users : gmap Z string := {[ 7 := "customer"; 1 := "admin" ]}.

(** ** The window getAllOrders and getUserOrders ask of the store *)

(** [page] and [limit] come out of [req.query]: absent, or a string.  The
    strings considered here are the strings of decimal digits, the empty one
    included; [Decimal.uint] is the type of such strings.  Numbers stay
    integers below 2^53 for the pages and limits the theorems speak of, so
    that [Z] computes what the doubles of JavaScript compute. *)

(** [Number(s)]: the value of a string of decimal digits, 0 for the empty
    string. *)
Definition to_number (s : Decimal.uint) : Z := Z.of_uint s.

(** [const { page = 1, limit = 10 } = req.query;
    const offset = (page - 1) * limit;] *)
Definition page_offset (page limit : option Decimal.uint) : Z :=
  (from_option to_number 1 page - 1) * from_option to_number 10 limit.

(** [offset + limit - 1]: with the default limit, a number, [+] adds; with a
    limit from the query, a string, [+] appends it to the decimal writing of
    [offset], and [- 1] turns the result back into a number. *)
Definition range_end (offset : Z) (limit : option Decimal.uint) : Z :=
  match limit with
  | None => offset + 10 - 1
  | Some s => Z.of_int (Decimal.app_int (Z.to_int offset) s) - 1
  end.

(** The two arguments of [.range(offset, offset + limit - 1)]. *)
Definition range_window (page limit : option Decimal.uint) : Z * Z :=
  (page_offset page limit, range_end (page_offset page limit) limit).

(** * The cart (cartController.js and its routes) *)

(** A row of [cart_items].  The two time stamps of a row are left out. *)
Record cart_item := mk_cart_item {
  item_id       : Z;
  ci_user_id    : Z;
  ci_product_id : Z;
  ci_quantity   : Z;
  ci_size       : option string
}.

(** The tables of the order handlers together with the cart table.
    [item_id] is the key of [cart_items] and is handed out by a counter, so at
    most one row carries a given id; the rows are kept newest first, which is
    the order [getCartItems] asks for. *)
Record db := mk_db {
  shop_tables  : store;
  cart_items   : list cart_item;
  next_item_id : Z
}.

(** How the store answers the calls on [cart_items].  [size_eq_null] tells
    which stored sizes the filter [.eq('size', null)] selects; the handlers
    leave that to the store. *)
Record cart_faults := mk_cart_faults {
  cart_select_fails  : bool;      (* a select whose error the handler reads *)
  cart_update_fails  : bool;
  cart_insert_fails  : bool;
  cart_delete_fails  : bool;
  cart_count_fails   : bool;      (* the count for the response; error ignored *)
  size_recheck_fails : bool;      (* the second size lookup of addToCart *)
  size_eq_null       : option string -> bool
}.

(** A store that answers every call on the cart, and in which the filter
    [.eq('size', null)] selects no row. *)
Definition cart_reliable : cart_faults :=
  mk_cart_faults false false false false false false (fun _ => false).

(** [req.body] of [POST /cart]; [cr_size] is [None] when there is no [size]
    field. *)
Record cart_req := mk_cart_req {
  cr_product_id : Z;
  cr_quantity   : Z;
  cr_size       : option string
}.

(** A cart row in a response, with the joined catalog row and the subtotal
    computed from it; the image of the product is left out. *)
Record cart_line := mk_cart_line {
  cl_row      : cart_item;
  cl_product  : product;
  cl_subtotal : Z
}.

(** An element of [stockIssues] in [getCartCheckout]. *)
Record stock_issue := mk_stock_issue {
  si_product_id   : Z;
  si_product_name : string;
  si_size         : option string;
  si_requested    : Z;
  si_available    : Z
}.

(** The JSON bodies the cart handlers send. *)
Inductive cart_body :=
  | CartValidationErrors                     (* errors: errors.array() *)
  | CartServerError                          (* Server error (the catch block) *)
  | CartItemsFetchFailed                     (* Server error saat mengambil item keranjang *)
  | CartItems (items : list cart_line) (item_count total : Z)
  | CartProductNotFound                      (* Produk tidak ditemukan *)
  | CartSizeNotFound (sz : string)           (* Ukuran .. untuk produk ini tidak ditemukan *)
  | CartInsufficientStock (available : Z)    (* Stok tidak cukup. Tersedia: .. *)
  | CartCheckFailed                          (* Server error saat memeriksa item keranjang *)
  | CartInsufficientForTotal (newQuantity available : Z)
                                             (* Stok tidak cukup untuk total .. Tersedia: .. *)
  | CartUpdateFailed                         (* Server error saat mengupdate item keranjang *)
  | CartInsertFailed                         (* Server error saat menambah item ke keranjang *)
  | CartItemSaved (updated : bool) (row : cart_item) (p : product)
                  (subtotal cart_count : Z)
  | CartItemNotFound                         (* Item keranjang tidak ditemukan *)
  | CartSizeRowNotFound                      (* Ukuran produk tidak ditemukan *)
  | CartItemUpdated (row : cart_item) (subtotal : Z)
                                             (* Jumlah item keranjang berhasil diupdate *)
  | CartDeleteFailed                         (* Server error saat menghapus item dari keranjang *)
  | CartItemRemoved (cart_count : Z)         (* Item berhasil dihapus dari keranjang *)
  | CartClearFailed                          (* Server error saat mengosongkan keranjang *)
  | CartCleared                              (* Keranjang berhasil dikosongkan *)
  | CartCountFailed                          (* Server error saat mengambil jumlah keranjang *)
  | CartCount (items quantity : Z)
  | CartSummaryFailed                        (* Server error saat mengambil ringkasan keranjang *)
  | CartSummary (item_count total_quantity total_amount : Z)
  | CartCheckoutFailed                       (* Server error saat menyiapkan checkout *)
  | CartEmpty                                (* Keranjang kosong, tidak dapat melakukan checkout *)
  | CartStockIssues (issues : list stock_issue)
                                             (* Beberapa item melebihi stok yang tersedia *)
  | CartCheckout (items : list cart_line) (item_count total_amount : Z).

Definition cart_response : Type := Z * cart_body.

(** [.from(cart_items).select(..).eq(user_id, uid)] *)
Definition cart_of (uid : Z) (d : db) : list cart_item :=
  filter (fun it => ci_user_id it = uid) (cart_items d).

(** [item.products], the catalog row joined to a cart row; [null] when the
    catalog has no such product. *)
Definition joined_product (d : db) (it : cart_item) : option product :=
  products (shop_tables d) !! ci_product_id it.

(** One row as the handlers present it; reading [price] off a joined row
    that is [null] throws. *)
Definition process_item (d : db) (it : cart_item) : option cart_line :=
  p ← joined_product d it;
  Some (mk_cart_line it p (price p * ci_quantity it)).

Definition sum_quantity (l : list cart_item) : Z :=
  foldl (fun total it => total + ci_quantity it) 0 l.

Definition sum_subtotal (l : list cart_line) : Z :=
  foldl (fun total line => total + cl_subtotal line) 0 l.

Definition set_cart (l : list cart_item) (d : db) : db :=
  mk_db (shop_tables d) l (next_item_id d).

Definition set_quantity (q : Z) (it : cart_item) : cart_item :=
  mk_cart_item (item_id it) (ci_user_id it) (ci_product_id it) q (ci_size it).

(** [.from(cart_items).update({ quantity: q, .. }).eq(item_id, id)] *)
Definition update_quantity (id q : Z) (l : list cart_item) : list cart_item :=
  map (fun it => if bool_decide (item_id it = id) then set_quantity q it else it) l.

(** [.from(cart_items).select(..).eq(item_id, id).eq(user_id, uid).single()] *)
Definition select_cart_item (cf : cart_faults) (uid id : Z) (d : db)
  : option cart_item :=
  if cart_select_fails cf then None else
  match filter (fun it => item_id it = id /\ ci_user_id it = uid) (cart_items d) with
  | [it] => Some it
  | _ => None
  end.

(** [cartCount || 0], from the count query that ends two of the handlers. *)
Definition cart_count (cf : cart_faults) (uid : Z) (d : db) : Z :=
  if cart_count_fails cf then 0 else Z.of_nat (length (cart_of uid d)).

(** ** getCartItems *)

Definition getCartItems (cf : cart_faults) (u : user) (d : db) : cart_response * db :=
  if cart_select_fails cf then ((500, CartItemsFetchFailed), d) else
  match mapM (process_item d) (cart_of (u_user_id u) d) with
  | None => ((500, CartServerError), d)
  | Some processedItems =>
      ((200, CartItems processedItems
               (foldl (fun count line => count + ci_quantity (cl_row line)) 0
                      processedItems)
               (sum_subtotal processedItems)), d)
  end.

(** ** addToCart *)

Definition addToCartValidation (r : cart_req) : bool :=
  (1 <=? cr_product_id r) && (1 <=? cr_quantity r).

(** [.eq('size', size || null)] on a stored size. *)
Definition size_matches (cf : cart_faults) (wanted stored : option string) : bool :=
  match wanted with
  | Some s => bool_decide (stored = Some s)
  | None => size_eq_null cf stored
  end.

(** The rows the lookup of an existing item selects. *)
Definition existing_rows (cf : cart_faults) (uid : Z) (r : cart_req) (d : db)
  : list cart_item :=
  filter (fun it => ci_user_id it = uid /\ ci_product_id it = cr_product_id r
                    /\ size_matches cf (size_or_null (cr_size r)) (ci_size it) = true)
         (cart_items d).

(** The stock check on the way in (lines 131-162): the response it ends the
    request with, if any. *)
Definition check_stock (f : faults) (st : store) (p : product) (r : cart_req)
  : option cart_response :=
  if truthy (cr_size r) then
    match select_size f st (cr_product_id r) (size_label (cr_size r)) with
    | None => Some (404, CartSizeNotFound (size_label (cr_size r)))
    | Some size_stock =>
        if size_stock <? cr_quantity r
        then Some (400, CartInsufficientStock size_stock) else None
    end
  else if stock p <? cr_quantity r
       then Some (400, CartInsufficientStock (stock p)) else None.

(** The second check, against the quantity already in the cart plus the new
    one (lines 187-207).  The size row is read again and its [error] is not
    looked at: without a row, reading [stock] throws. *)
Definition recheck_stock (cf : cart_faults) (st : store) (p : product) (r : cart_req)
    (newQuantity : Z) : option cart_response :=
  if truthy (cr_size r) then
    match (if size_recheck_fails cf then None
           else product_sizes st !! (cr_product_id r, size_label (cr_size r))) with
    | None => Some (500, CartServerError)
    | Some size_stock =>
        if size_stock <? newQuantity
        then Some (400, CartInsufficientForTotal newQuantity size_stock) else None
    end
  else if stock p <? newQuantity
       then Some (400, CartInsufficientForTotal newQuantity (stock p)) else None.

Definition addToCart (f : faults) (cf : cart_faults) (u : user) (r : cart_req) (d : db)
  : cart_response * db :=
  if negb (addToCartValidation r) then ((400, CartValidationErrors), d) else
  match select_product f (shop_tables d) (cr_product_id r) with
  | None => ((404, CartProductNotFound), d)
  | Some p =>
      match check_stock f (shop_tables d) p r with
      | Some resp => (resp, d)
      | None =>
          if cart_select_fails cf then ((500, CartCheckFailed), d) else
          match existing_rows cf (u_user_id u) r d with
          | _ :: _ :: _ => ((500, CartCheckFailed), d)   (* maybeSingle: several rows *)
          | [existingItem] =>
              let newQuantity := ci_quantity existingItem + cr_quantity r in
              match recheck_stock cf (shop_tables d) p r newQuantity with
              | Some resp => (resp, d)
              | None =>
                  if cart_update_fails cf then ((500, CartUpdateFailed), d) else
                  let d' := set_cart (update_quantity (item_id existingItem) newQuantity
                                                      (cart_items d)) d in
                  ((200, CartItemSaved true (set_quantity newQuantity existingItem) p
                           (price p * newQuantity) (cart_count cf (u_user_id u) d')),
                   d')
              end
          | [] =>
              if cart_insert_fails cf then ((500, CartInsertFailed), d) else
              let newItem := mk_cart_item (next_item_id d) (u_user_id u)
                               (cr_product_id r) (cr_quantity r)
                               (size_or_null (cr_size r)) in
              let d' := mk_db (shop_tables d) (newItem :: cart_items d)
                              (next_item_id d + 1) in
              ((200, CartItemSaved false newItem p (price p * cr_quantity r)
                       (cart_count cf (u_user_id u) d')),
               d')
          end
      end
  end.

(** ** updateCartItem *)

Definition updateCartValidation (quantity : Z) : bool := 1 <=? quantity.

Definition updateCartItem (f : faults) (cf : cart_faults) (u : user) (id quantity : Z)
    (d : db) : cart_response * db :=
  if negb (updateCartValidation quantity) then ((400, CartValidationErrors), d) else
  match select_cart_item cf (u_user_id u) id d with
  | None => ((404, CartItemNotFound), d)
  | Some cartItem =>
      let refusal : option cart_response :=
        if truthy (ci_size cartItem) then
          match select_size f (shop_tables d) (ci_product_id cartItem)
                            (size_label (ci_size cartItem)) with
          | None => Some (404, CartSizeRowNotFound)
          | Some size_stock =>
              if size_stock <? quantity
              then Some (400, CartInsufficientStock size_stock) else None
          end
        else
          match joined_product d cartItem with
          | None => Some (500, CartServerError)
          | Some p =>
              if stock p <? quantity
              then Some (400, CartInsufficientStock (stock p)) else None
          end in
      match refusal with
      | Some resp => (resp, d)
      | None =>
          if cart_update_fails cf then ((500, CartUpdateFailed), d) else
          let d' := set_cart (update_quantity id quantity (cart_items d)) d in
          match joined_product d cartItem with
          | None => ((500, CartServerError), d')   (* the subtotal of the response *)
          | Some p =>
              ((200, CartItemUpdated (set_quantity quantity cartItem)
                                     (price p * quantity)), d')
          end
      end
  end.

(** ** removeFromCart and clearCart *)

Definition removeFromCart (cf : cart_faults) (u : user) (id : Z) (d : db)
  : cart_response * db :=
  match select_cart_item cf (u_user_id u) id d with
  | None => ((404, CartItemNotFound), d)
  | Some _ =>
      if cart_delete_fails cf then ((500, CartDeleteFailed), d) else
      let d' := set_cart (filter (fun it => item_id it <> id) (cart_items d)) d in
      ((200, CartItemRemoved (cart_count cf (u_user_id u) d')), d')
  end.

Definition clearCart (cf : cart_faults) (u : user) (d : db) : cart_response * db :=
  if cart_delete_fails cf then ((500, CartClearFailed), d) else
  ((200, CartCleared),
   set_cart (filter (fun it => ci_user_id it <> u_user_id u) (cart_items d)) d).

(** ** getCartCount and getCartSummary *)

Definition getCartCount (cf : cart_faults) (u : user) (d : db) : cart_response * db :=
  if cart_select_fails cf then ((500, CartCountFailed), d) else
  let items := cart_of (u_user_id u) d in
  ((200, CartCount (Z.of_nat (length items)) (sum_quantity items)), d).

Definition getCartSummary (cf : cart_faults) (u : user) (d : db) : cart_response * db :=
  if cart_select_fails cf then ((500, CartSummaryFailed), d) else
  let cartItems := cart_of (u_user_id u) d in
  match mapM (process_item d) cartItems with
  | None => ((500, CartServerError), d)
  | Some lines =>
      ((200, CartSummary (Z.of_nat (length cartItems)) (sum_quantity cartItems)
                         (sum_subtotal lines)), d)
  end.

(** ** getCartCheckout *)

(** One turn of the loop that fills [stockIssues]: what it pushes, or nothing
    ([None]) when it throws on a joined row that is [null]. *)
Definition stock_issues_of (f : faults) (d : db) (item : cart_item)
  : option (list stock_issue) :=
  if truthy (ci_size item) then
    match select_size f (shop_tables d) (ci_product_id item)
                      (size_label (ci_size item)) with
    | Some size_stock =>
        if size_stock <? ci_quantity item then
          p ← joined_product d item;
          Some [mk_stock_issue (ci_product_id item) (name p) (ci_size item)
                               (ci_quantity item) size_stock]
        else Some []
    | None => Some []
    end
  else
    p ← joined_product d item;
    Some (if stock p <? ci_quantity item
          then [mk_stock_issue (ci_product_id item) (name p) None
                               (ci_quantity item) (stock p)]
          else []).

Definition getCartCheckout (f : faults) (cf : cart_faults) (u : user) (d : db)
  : cart_response * db :=
  if cart_select_fails cf then ((500, CartCheckoutFailed), d) else
  match cart_of (u_user_id u) d with
  | [] => ((400, CartEmpty), d)
  | cartItems =>
      match mapM (stock_issues_of f d) cartItems with
      | None => ((500, CartServerError), d)
      | Some pushed =>
          match concat pushed with
          | _ :: _ as stockIssues => ((400, CartStockIssues stockIssues), d)
          | [] =>
              match mapM (process_item d) cartItems with
              | None => ((500, CartServerError), d)
              | Some checkoutItems =>
                  ((200, CartCheckout checkoutItems
                           (Z.of_nat (length checkoutItems))
                           (sum_subtotal checkoutItems)), d)
              end
          end
      end
  end.

(** ** The operations on the stock-bearing store *)

(** A request to one of the handlers that create, cancel or move an order,
    or to one of the eight cart handlers. *)
Inductive shop_op :=
  | CreateOrder (items : list req_item)
  | CancelOrder (id : Z)
  | UpdateOrderStatus (new_status : string) (id : Z)
  | GetCartItems
  | AddToCart (r : cart_req)
  | UpdateCartItem (id quantity : Z)
  | RemoveFromCart (id : Z)
  | ClearCart
  | GetCartCount
  | GetCartSummary
  | GetCartCheckout.

(** An order handler run on the order tables of a [db]. *)
Definition on_shop_tables (h : store -> response * store) (d : db) : db :=
  mk_db (h (shop_tables d)).2 (cart_items d) (next_item_id d).

(** One request, made by [u] while the store answers as [f] and [cf] say;
    only the state after the request is kept. *)
Definition run_shop_op (f : faults) (cf : cart_faults) (u : user) (op : shop_op)
    (d : db) : db :=
  match op with
  | CreateOrder items => on_shop_tables (createOrder f u items) d
  | CancelOrder id => on_shop_tables (cancelOrder f u id) d
  | UpdateOrderStatus new_status id =>
      on_shop_tables (updateOrderStatus f new_status id) d
  | GetCartItems => (getCartItems cf u d).2
  | AddToCart r => (addToCart f cf u r d).2
  | UpdateCartItem id quantity => (updateCartItem f cf u id quantity d).2
  | RemoveFromCart id => (removeFromCart cf u id d).2
  | ClearCart => (clearCart cf u d).2
  | GetCartCount => (getCartCount cf u d).2
  | GetCartSummary => (getCartSummary cf u d).2
  | GetCartCheckout => (getCartCheckout f cf u d).2
  end.

(** Requests served one after the other, each by its own caller and under
    its own answers of the store. *)
Definition run_shop_ops (steps : list (faults * cart_faults * user * shop_op))
    (d : db) : db :=
  foldl (fun d '(f, cf, u, op) => run_shop_op f cf u op d) d steps.

(** The sample shop with an empty cart table. *)
Definition shop_db : db := mk_db shop [] 1.

(** ** Notions used to state the properties of the cart *)


(** The ids of the cart rows are pairwise different and below the next id
    to hand out. *)
Definition item_ids_fresh (d : db) : Prop :=
  NoDup (map item_id (cart_items d))
  /\ Forall (fun it => item_id it < next_item_id d) (cart_items d).

(** The sample shop after bob put two pieces of product 1 into his cart
    (item 1) and alice one piece of product 2 in size M into hers (item 2). *)
Definition shop_with_carts : db :=
  (addToCart reliable cart_reliable alice (mk_cart_req 2 1 (Some "M"))
     (addToCart reliable cart_reliable bob (mk_cart_req 1 2 None) shop_db).2).2.

(** * Properties *)

(** ** Reserve followed by release *)

(** Each turn of either stock loop sends an update whose new value is a query
    builder, so no turn writes anything. *)
Lemma reserve_item_writes_nothing v st : reserve_item v st = st.
Proof. unfold reserve_item. by destruct (truthy (vi_size v)). Qed.

Lemma release_item_writes_nothing a st : release_item a st = st.
Proof. unfold release_item. by destruct (truthy (oi_size a)). Qed.

Lemma reserve_writes_nothing vs st : reserve vs st = st.
Proof.
  revert st. induction vs as [|v vs IH]; intros st; [done|].
  simpl. by rewrite reserve_item_writes_nothing.
Qed.

Lemma release_writes_nothing l st : release l st = st.
Proof.
  revert st. induction l as [|a l IH]; intros st; [done|].
  simpl. by rewrite release_item_writes_nothing.
Qed.

(** C2. For every list of verified line items and every store, the loop that
    ends [createOrder] followed by the loop of [cancelOrder] on the persisted
    copies of the same items gives back the store it started from: every
    general and every per-size stock row, looked up by its key, has the value
    it had before the reservation.  It does so because the first loop already
    leaves every row at that value. *)
Theorem release_reserve_roundtrip (oid : Z) (vs : list verified_item) (st : store) :
  release (map (to_order_item oid) vs) (reserve vs st) = st
  /\ (forall pid,
        products (release (map (to_order_item oid) vs) (reserve vs st)) !! pid
        = products st !! pid)
  /\ (forall pid label,
        product_sizes (release (map (to_order_item oid) vs) (reserve vs st))
          !! (pid, label)
        = product_sizes st !! (pid, label))
  /\ reserve vs st = st.
Proof. by rewrite release_writes_nothing, reserve_writes_nothing. Qed.

(** ** The status state machine *)

Lemma spec_transition_allowed s t : spec_transition s t -> allowed s t = true.
Proof. by destruct 1. Qed.

Lemma allowed_spec_transition s t :
  In s all_statuses -> In t all_statuses ->
  allowed s t = true -> spec_transition s t.
Proof.
  unfold all_statuses. simpl. intros Hs Ht.
  repeat (destruct Hs as [<-|Hs]); try done;
    repeat (destruct Ht as [<-|Ht]); try done;
    intros Ha; try (by constructor); by vm_compute in Ha.
Qed.

Lemma statusValidation_all_statuses t : In t all_statuses -> statusValidation t = true.
Proof.
  unfold all_statuses. simpl. intros Ht.
  repeat (destruct Ht as [<-|Ht]); done.
Qed.

Lemma validStatusTransitions_all_statuses s :
  In s all_statuses -> is_Some (validStatusTransitions s).
Proof.
  unfold all_statuses. simpl. intros Hs.
  repeat (destruct Hs as [<-|Hs]); try done; by eexists.
Qed.

(** Updating a row that is there is the same as writing the updated row. *)
Lemma alter_present `{Countable K} {A} (g : A -> A) (i : K) (m : gmap K A) x :
  m !! i = Some x -> alter g i m = <[i := g x]> m.
Proof.
  intros Hx. apply map_eq. intros j.
  destruct (decide (i = j)) as [<-|Hne].
  - by rewrite lookup_alter_eq, lookup_insert_eq, Hx.
  - by rewrite lookup_alter_ne, lookup_insert_ne.
Qed.

(** The handler once validation has passed and the order has been found. *)
Lemma updateOrderStatus_found f t id st o :
  orders_select_fails f = false -> orders_update_fails f = false ->
  orders st !! id = Some o ->
  In (status o) all_statuses -> In t all_statuses ->
  updateOrderStatus f t id st =
    if allowed (status o) t
    then ((200, StatusUpdated (set_status t o)),
          set_orders (<[id := set_status t o]> (orders st)) st)
    else ((400, InvalidTransition (status o) t), st).
Proof.
  intros Hsel Hupd Ho Hs Ht. unfold updateOrderStatus, select_order, allowed.
  rewrite (statusValidation_all_statuses t Ht), Hsel, Ho, Hupd. simpl.
  destruct (validStatusTransitions_all_statuses _ Hs) as [l ->].
  destruct (includes l t); simpl; [|done].
  by rewrite (alter_present _ _ _ o).
Qed.

(** C1. Take an order whose status is one of the eight statuses and a target
    among the eight.  When the pair is an arrow of the table of section 4.1,
    [updateOrderStatus] answers 200 and the stored order is the old one with
    the target as its status; for every other pair it answers 400 with the
    invalid-transition message and the store, hence the status, is as before. *)
Theorem updateOrderStatus_follows_table f t id st o :
  orders_select_fails f = false -> orders_update_fails f = false ->
  orders st !! id = Some o ->
  In (status o) all_statuses -> In t all_statuses ->
  (spec_transition (status o) t ->
     exists st', updateOrderStatus f t id st
                 = ((200, StatusUpdated (set_status t o)), st')
       /\ orders st' !! id = Some (set_status t o)
       /\ status (set_status t o) = t)
  /\ (~ spec_transition (status o) t ->
     updateOrderStatus f t id st = ((400, InvalidTransition (status o) t), st)).
Proof.
  intros Hsel Hupd Ho Hs Ht.
  rewrite (updateOrderStatus_found f t id st o) by done. split.
  - intros Htr. rewrite (spec_transition_allowed _ _ Htr).
    eexists. split; [done|]. split; [|done]. simpl. apply lookup_insert_eq.
  - intros Hno. destruct (allowed (status o) t) eqn:Ha; [|done].
    destruct Hno. by apply allowed_spec_transition.
Qed.

Lemma updateOrderStatus_follows_table_witness :
  orders shop_after_order !! 1 = Some (mk_order 7 300 "pending")
  /\ (exists st', updateOrderStatus reliable "processing" 1 shop_after_order
                  = ((200, StatusUpdated (mk_order 7 300 "processing")), st')
        /\ orders st' !! 1 = Some (mk_order 7 300 "processing"))
  /\ updateOrderStatus reliable "shipped" 1 shop_after_order
     = ((400, InvalidTransition "pending" "shipped"), shop_after_order).
Proof.
  assert (Ho : orders shop_after_order !! 1 = Some (mk_order 7 300 "pending"))
    by reflexivity.
  split; [exact Ho|]. split.
  - destruct (updateOrderStatus_follows_table reliable "processing" 1
                shop_after_order (mk_order 7 300 "pending")) as [Hok _];
      [reflexivity | reflexivity | exact Ho | simpl; tauto | simpl; tauto |].
    destruct (Hok tr_pending_processing) as (st' & H1 & H2 & _).
    exists st'. split; [exact H1 | exact H2].
  - destruct (updateOrderStatus_follows_table reliable "shipped" 1
                shop_after_order (mk_order 7 300 "pending")) as [_ Hbad];
      [reflexivity | reflexivity | exact Ho | simpl; tauto | simpl; tauto |].
    apply Hbad. simpl. inversion 1.
Defined.

(** ** Cancelling an order *)

(** C7, observed on the code.  A cancel requested by the owner of the order.
    From [pending] or [processing] it answers 200 and the stored order
    carries the status [cancelled]; the release loop then runs over the items
    of the order, but gives nothing back: both stock tables are exactly what
    they were before the request, where the claim expects every row to be
    raised by the pieces of the items that address it.  From any other
    status it answers 400 with the message that the order cannot be
    cancelled, and the store (orders and stock) is as before. *)
Theorem cancelOrder_by_owner f u id st o :
  orders_select_fails f = false -> orders_update_fails f = false ->
  order_items_select_fails f = false ->
  orders st !! id = Some o -> user_id o = u_user_id u ->
  (status o = "pending" \/ status o = "processing" ->
     exists st', cancelOrder f u id st
                 = ((200, OrderCancelled (set_status "cancelled" o)), st')
       /\ orders st' !! id = Some (set_status "cancelled" o)
       /\ products st' = products st
       /\ product_sizes st' = product_sizes st)
  /\ (status o <> "pending" -> status o <> "processing" ->
     cancelOrder f u id st = ((400, NotCancellable (status o)), st)).
Proof.
  intros Hsel Hupd Hitems Ho Hown.
  unfold cancelOrder, select_order. rewrite Hsel, Ho, Hupd, Hitems.
  assert ((user_id o =? u_user_id u) = true) as -> by by apply Z.eqb_eq.
  rewrite andb_false_r. split.
  - intros Hst.
    assert (negb (String.eqb (status o) "pending")
            && negb (String.eqb (status o) "processing") = false) as ->.
    { destruct Hst as [-> | ->]; done. }
    eexists. split; [done|].
    rewrite release_writes_nothing. simpl. split; [|done].
    by rewrite lookup_alter_eq, Ho.
  - intros Hp Hq.
    apply String.eqb_neq in Hp, Hq. by rewrite Hp, Hq.
Qed.

Lemma cancelOrder_by_owner_witness :
  items_of_order shop_reserved 1 = [mk_order_item 1 1 None 3 100]
  /\ products shop_reserved !! 1 = Some (mk_product "kaos" 100 2)
  /\ (exists st', cancelOrder reliable alice 1 shop_reserved
               = ((200, OrderCancelled (mk_order 7 300 "cancelled")), st')
     /\ orders st' !! 1 = Some (mk_order 7 300 "cancelled")
     /\ products st' !! 1 = Some (mk_product "kaos" 100 2))
  /\ cancelOrder reliable alice 1 shop_after_shipping
     = ((400, NotCancellable "shipped"), shop_after_shipping).
Proof.
  split; [reflexivity|]. split; [reflexivity|]. split.
  - destruct (cancelOrder_by_owner reliable alice 1 shop_reserved
                (mk_order 7 300 "pending")) as [Hok _];
      [reflexivity | reflexivity | reflexivity | reflexivity | reflexivity |].
    destruct (Hok (or_introl eq_refl)) as (st' & H1 & H2 & H3 & _).
    exists st'. split; [exact H1|]. split; [exact H2|].
    rewrite H3. reflexivity.
  - destruct (cancelOrder_by_owner reliable alice 1 shop_after_shipping
                (mk_order 7 300 "shipped")) as [_ Hbad];
      [reflexivity | reflexivity | reflexivity | reflexivity | reflexivity |].
    apply Hbad; discriminate.
Defined.

(** C10. A caller who is not an admin and asks to cancel an existing order of
    somebody else is answered 403 by the ownership check of [cancelOrder];
    the store is returned as it was, so neither the status of the order nor
    any stock row moves. *)
Theorem cancelOrder_foreign_order_forbidden f u id st o :
  orders_select_fails f = false ->
  role u <> "admin" ->
  orders st !! id = Some o -> user_id o <> u_user_id u ->
  cancelOrder f u id st = ((403, NoAccess), st).
Proof.
  intros Hsel Hrole Ho Hown. unfold cancelOrder, select_order.
  rewrite Hsel, Ho.
  apply String.eqb_neq in Hrole. apply Z.eqb_neq in Hown.
  by rewrite Hrole, Hown.
Qed.

Lemma cancelOrder_foreign_order_forbidden_witness :
  role bob <> "admin"
  /\ orders shop_after_order !! 1 = Some (mk_order 7 300 "pending")
  /\ cancelOrder reliable bob 1 shop_after_order = ((403, NoAccess), shop_after_order).
Proof.
  split; [discriminate|]. split; [reflexivity|].
  apply (cancelOrder_foreign_order_forbidden reliable bob 1 shop_after_order
           (mk_order 7 300 "pending"));
    [reflexivity | discriminate | reflexivity | discriminate].
Defined.

(** ** Reading an order *)

Lemma scoped_order_foreign u id st o :
  role u <> "admin" -> orders st !! id = Some o -> user_id o <> u_user_id u ->
  scoped_order u id st = None.
Proof.
  intros Hrole Ho Hown. unfold scoped_order. rewrite Ho.
  apply String.eqb_neq in Hrole. apply Z.eqb_neq in Hown.
  by rewrite Hrole, Hown.
Qed.

Lemma scoped_order_absent u id st : orders st !! id = None -> scoped_order u id st = None.
Proof. intros Ho. unfold scoped_order. by rewrite Ho. Qed.

(** C8. A caller who is not an admin and reads an order of somebody else
    through [getOrderById] is answered 404: the query is narrowed to the
    caller's own rows and finds none; no 403 is involved.  The answer is the
    very answer given for an id no order has, here both for the same id once
    the order is deleted and for any other id that is not in the table. *)
Theorem getOrderById_foreign_order_not_found f u id st o :
  orders_select_fails f = false ->
  role u <> "admin" ->
  orders st !! id = Some o -> user_id o <> u_user_id u ->
  getOrderById f u id st = ((404, OrderNotFound), st)
  /\ (getOrderById f u id (set_orders (delete id (orders st)) st)).1
     = (getOrderById f u id st).1
  /\ (forall id', orders st !! id' = None ->
        (getOrderById f u id' st).1 = (getOrderById f u id st).1).
Proof.
  intros Hsel Hrole Ho Hown.
  assert (Hthis : getOrderById f u id st = ((404, OrderNotFound), st)).
  { unfold getOrderById.
    by rewrite Hsel, (scoped_order_foreign u id st o). }
  split; [exact Hthis|]. rewrite Hthis. split.
  - unfold getOrderById. rewrite Hsel, scoped_order_absent; [done|].
    simpl. apply lookup_delete_eq.
  - intros id' Hnone. unfold getOrderById.
    by rewrite Hsel, scoped_order_absent.
Qed.

Lemma getOrderById_foreign_order_not_found_witness :
  role bob <> "admin"
  /\ orders shop_after_order !! 1 = Some (mk_order 7 300 "pending")
  /\ getOrderById reliable bob 1 shop_after_order = ((404, OrderNotFound), shop_after_order)
  /\ (getOrderById reliable bob 5 shop_after_order).1
     = (getOrderById reliable bob 1 shop_after_order).1.
Proof.
  split; [discriminate|]. split; [reflexivity|].
  destruct (getOrderById_foreign_order_not_found reliable bob 1 shop_after_order
              (mk_order 7 300 "pending")) as (H1 & _ & H3);
    [reflexivity | discriminate | reflexivity | discriminate |].
  split; [exact H1|]. apply H3. reflexivity.
Defined.

(** ** Creating an order *)

Lemma reserve_orders vs st : orders (reserve vs st) = orders st.
Proof.
  revert st. induction vs as [|v vs IH]; intros st; [done|].
  simpl. rewrite IH. unfold reserve_item. by destruct (truthy (vi_size v)).
Qed.

Lemma reserve_order_items vs st : order_items (reserve vs st) = order_items st.
Proof.
  revert st. induction vs as [|v vs IH]; intros st; [done|].
  simpl. rewrite IH. unfold reserve_item. by destruct (truthy (vi_size v)).
Qed.

(** What one turn of the verification loop has established when it pushes an
    item: the pushed item carries the catalog price, and the located counter
    covers the requested quantity. *)
Lemma verify_item_inr f st it v :
  verify_item f st it = inr v ->
  v = mk_verified_item (product_id it) (size_or_null (size it)) (quantity it)
                       (catalog_price st (product_id it))
  /\ ~ exceeds_stock st it.
Proof.
  unfold verify_item, select_product, select_size, exceeds_stock,
    located_stock, catalog_price.
  destruct (products_select_fails f _); [done|].
  destruct (products st !! product_id it) as [prod|] eqn:Hp; [|done]. simpl.
  destruct (truthy (size it)).
  - destruct (product_sizes_select_fails f _ _); [done|].
    destruct (product_sizes st !! _) as [s|] eqn:Hs; [|done].
    destruct (Z.ltb_spec s (quantity it)); [done|].
    intros [= <-]. split; [done|]. intros (s' & [= <-] & ?). lia.
  - destruct (Z.ltb_spec (stock prod) (quantity it)); [done|].
    intros [= <-]. split; [done|]. intros (s' & [= <-] & ?). lia.
Qed.

(** Every answer produced inside the verification loop is a 400. *)
Lemma verify_item_inl f st it r : verify_item f st it = inl r -> http_status r = 400.
Proof.
  unfold verify_item.
  destruct (select_product f st (product_id it)) as [prod|]; [|by intros [= <-]].
  destruct (truthy (size it)).
  - destruct (select_size f st _ _) as [s|]; [|by intros [= <-]].
    destruct (s <? quantity it); [by intros [= <-]|done].
  - destruct (stock prod <? quantity it); [by intros [= <-]|done].
Qed.

Lemma verify_items_inl f st items acc vs r :
  verify_items f st items acc vs = inl r -> http_status r = 400.
Proof.
  revert acc vs. induction items as [|it items IH]; intros acc vs; [done|].
  simpl. destruct (verify_item f st it) as [r'|v] eqn:Hit.
  - intros [= <-]. by eapply verify_item_inl.
  - apply IH.
Qed.

Lemma verify_items_inr f st items acc vs total verified :
  verify_items f st items acc vs = inr (total, verified) ->
  total = acc + order_total st items
  /\ map (to_order_item (next_order_id st)) verified
     = map (to_order_item (next_order_id st)) vs
       ++ map (expected_order_item st (next_order_id st)) items
  /\ Forall (fun it => ~ exceeds_stock st it) items.
Proof.
  revert acc vs. induction items as [|it items IH]; intros acc vs.
  - simpl. intros [= <- <-]. rewrite app_nil_r. split; [lia|done].
  - simpl. destruct (verify_item f st it) as [r'|v] eqn:Hit; [done|].
    destruct (verify_item_inr _ _ _ _ Hit) as [-> Hfits].
    intros Hrest. destruct (IH _ _ Hrest) as (-> & -> & Hall). simpl.
    split; [lia|]. split; [|by constructor].
    by rewrite map_app, <- app_assoc.
Qed.

(** The loop never looks at a price sent by the client. *)
Lemma verify_items_without_client_price f st items acc vs :
  verify_items f st (map without_client_price items) acc vs
  = verify_items f st items acc vs.
Proof.
  revert acc vs. induction items as [|it items IH]; intros acc vs; [done|].
  simpl. change (verify_item f st (without_client_price it))
           with (verify_item f st it).
  destruct (verify_item f st it); [done|]. apply IH.
Qed.

Lemma orderValidation_without_client_price items :
  orderValidation (map without_client_price items) = orderValidation items.
Proof.
  unfold orderValidation. rewrite length_map. f_equal.
  induction items as [|it items IH]; [done|]. simpl. by rewrite IH.
Qed.

Lemma createOrder_without_client_price f u items st :
  createOrder f u (map without_client_price items) st = createOrder f u items st.
Proof.
  unfold createOrder.
  by rewrite orderValidation_without_client_price, verify_items_without_client_price.
Qed.

(** C4. Whenever [createOrder] answers 201, the total it reports and stores
    in the order header is the sum over the line items of the catalog price
    of the product times the requested quantity, each order item it stores
    carries that catalog price as its unit price, and two requests that
    differ only in prices attached by the client are handled identically. *)
Theorem createOrder_total_from_catalog f u items st oid total st' :
  createOrder f u items st = ((201, OrderCreated oid total), st') ->
  total = order_total st items
  /\ orders st' !! oid = Some (mk_order (u_user_id u) (order_total st items) "pending")
  /\ order_items st' = order_items st ++ map (expected_order_item st oid) items
  /\ (forall items',
        map without_client_price items' = map without_client_price items ->
        createOrder f u items' st = createOrder f u items st).
Proof.
  intros Hrun. split; [|split; [|split]]; cycle 3.
  { intros items' Heq.
    by rewrite <- (createOrder_without_client_price f u items'), Heq,
      createOrder_without_client_price. }
  all: revert Hrun; unfold createOrder;
    destruct (negb (orderValidation items)); [done|];
    destruct (verify_items f st items 0 []) as [r|[tot verified]] eqn:Hloop;
      [intros [= Hr _]; apply verify_items_inl in Hloop; by rewrite Hr in Hloop|];
    destruct (orders_insert_fails f); [done|];
    destruct (order_items_insert_fails f); [done|];
    intros [= <- <- <-];
    destruct (verify_items_inr _ _ _ _ _ _ _ Hloop) as (-> & Hmap & _).
  - lia.
  - rewrite reserve_orders. simpl. rewrite lookup_insert_eq. repeat f_equal; lia.
  - rewrite reserve_order_items. simpl. by rewrite Hmap.
Qed.

Lemma createOrder_total_from_catalog_witness :
  createOrder reliable alice
    [mk_req_item 1 None 3 (Some 1); mk_req_item 2 (Some "M") 2 (Some 0)] shop
  = ((201, OrderCreated 1 800),
     (createOrder reliable alice
        [mk_req_item 1 None 3 (Some 1); mk_req_item 2 (Some "M") 2 (Some 0)] shop).2)
  /\ 800 = order_total shop
             [mk_req_item 1 None 3 (Some 1); mk_req_item 2 (Some "M") 2 (Some 0)]
  /\ createOrder reliable alice
       [mk_req_item 1 None 3 None; mk_req_item 2 (Some "M") 2 (Some 999)] shop
     = createOrder reliable alice
         [mk_req_item 1 None 3 (Some 1); mk_req_item 2 (Some "M") 2 (Some 0)] shop.
Proof.
  assert (Hrun : createOrder reliable alice
    [mk_req_item 1 None 3 (Some 1); mk_req_item 2 (Some "M") 2 (Some 0)] shop
  = ((201, OrderCreated 1 800),
     (createOrder reliable alice
        [mk_req_item 1 None 3 (Some 1); mk_req_item 2 (Some "M") 2 (Some 0)] shop).2))
    by reflexivity.
  split; [exact Hrun|].
  destruct (createOrder_total_from_catalog _ _ _ _ _ _ _ Hrun) as (Ht & _ & _ & Hind).
  split; [exact Ht|]. apply Hind. reflexivity.
Defined.

(** An item whose located counter is too low is turned down with one of the
    two out-of-stock messages, provided its product can be read. *)
Lemma verify_item_exceeds f st it :
  products_select_fails f (product_id it) = false ->
  product_sizes_select_fails f (product_id it) (size_label (size it)) = false ->
  is_Some (products st !! product_id it) ->
  exceeds_stock st it ->
  exists r, verify_item f st it = inl r
            /\ http_status r = 400 /\ is_insufficient_stock r.2 = true.
Proof.
  intros Hp Hs [prod Hprod] (s & Hloc & Hlt).
  unfold verify_item, select_product, select_size. rewrite Hp, Hprod, Hs.
  unfold located_stock in Hloc. destruct (truthy (size it)).
  - rewrite Hloc. apply Z.ltb_lt in Hlt. rewrite Hlt. by eexists.
  - rewrite Hprod in Hloc. injection Hloc as <-.
    apply Z.ltb_lt in Hlt. rewrite Hlt. by eexists.
Qed.

(** The loop runs through a prefix of items that all pass and then answers
    whatever the next item is answered. *)
Lemma verify_items_first_failure f st pre it post acc vs r :
  Forall (fun x => exists v, verify_item f st x = inr v) pre ->
  verify_item f st it = inl r ->
  verify_items f st (pre ++ it :: post) acc vs = inl r.
Proof.
  intros Hpre Hit. revert acc vs.
  induction Hpre as [|x pre [v Hx] _ IH]; intros acc vs; simpl.
  - by rewrite Hit.
  - rewrite Hx. apply IH.
Qed.

(** C3, as the code has it.  When some line item asks for more than the
    counter located for it holds, [createOrder] answers 400 and returns the
    store untouched, so no order header exists afterwards.  The body is an
    out-of-stock message when the request passes validation, the store
    answers the product and size queries, and the first item that does not
    pass the loop is an out-of-stock item of a known product; an earlier
    item, or a failed validation, is answered with its own 400 otherwise. *)
Theorem createOrder_insufficient_stock f u items st :
  (exists it, In it items /\ exceeds_stock st it) ->
  exists r, createOrder f u items st = (r, st)
    /\ http_status r = 400
    /\ (forall pre it post,
          items = pre ++ it :: post ->
          orderValidation items = true ->
          products_select_fails f (product_id it) = false ->
          product_sizes_select_fails f (product_id it) (size_label (size it)) = false ->
          Forall (fun x => exists v, verify_item f st x = inr v) pre ->
          is_Some (products st !! product_id it) ->
          exceeds_stock st it ->
          is_insufficient_stock r.2 = true).
Proof.
  intros (bad & Hin & Hbad). unfold createOrder.
  destruct (orderValidation items) eqn:Hval; simpl.
  - destruct (verify_items f st items 0 []) as [r|[tot verified]] eqn:Hloop.
    + exists r. split; [done|]. split; [by eapply verify_items_inl|].
      intros pre it post -> _ Hp Hs Hpre Hprod Hit.
      destruct (verify_item_exceeds f st it Hp Hs Hprod Hit) as (r' & Hr' & _ & Hmsg).
      rewrite (verify_items_first_failure _ _ _ _ _ _ _ r' Hpre Hr') in Hloop.
      by injection Hloop as <-.
    + apply verify_items_inr in Hloop as (_ & _ & Hall).
      rewrite Forall_forall in Hall. destruct (Hall bad); [|done].
      by apply list_elem_of_In.
  - eexists. split; [done|]. split; [done|]. congruence.
Qed.

Lemma createOrder_insufficient_stock_witness :
  exists r, createOrder reliable alice
              [mk_req_item 2 (Some "M") 1 None; mk_req_item 1 None 10 None] shop
            = (r, shop)
    /\ http_status r = 400 /\ is_insufficient_stock r.2 = true.
Proof.
  destruct (createOrder_insufficient_stock reliable alice
              [mk_req_item 2 (Some "M") 1 None; mk_req_item 1 None 10 None] shop)
    as (r & Hrun & Hst & Hmsg).
  { exists (mk_req_item 1 None 10 None). split; [simpl; tauto|].
    exists 5. split; [reflexivity | simpl; lia]. }
  exists r. split; [exact Hrun|]. split; [exact Hst|].
  apply (Hmsg [mk_req_item 2 (Some "M") 1 None] (mk_req_item 1 None 10 None) []);
    [reflexivity | reflexivity | reflexivity | reflexivity | | | ].
  - constructor; [|constructor]. eexists. reflexivity.
  - eexists. reflexivity.
  - exists 5. split; [reflexivity | simpl; lia].
Defined.

(** The claim C3 as the specification words it, every such request being
    answered with the out-of-stock message, fails on a request whose first
    item names a product the catalog does not have: that item is answered
    first. *)
Lemma createOrder_insufficient_stock_counterexample :
  ~ ((exists it, In it [mk_req_item 99 None 1 None; mk_req_item 1 None 10 None]
                 /\ exceeds_stock shop it) ->
     is_insufficient_stock
       (createOrder reliable alice
          [mk_req_item 99 None 1 None; mk_req_item 1 None 10 None] shop).1.2 = true).
Proof.
  intros Hclaim.
  assert (Hex : exists it,
             In it [mk_req_item 99 None 1 None; mk_req_item 1 None 10 None]
             /\ exceeds_stock shop it).
  { exists (mk_req_item 1 None 10 None). split; [simpl; tauto|].
    exists 5. split; [reflexivity | simpl; lia]. }
  specialize (Hclaim Hex). vm_compute in Hclaim. discriminate.
Qed.

Lemma filter_order_id_fresh id (l : list order_item) :
  Forall (fun oi => oi_order_id oi <> id) l ->
  filter (fun oi => oi_order_id oi = id) l = [].
Proof.
  induction 1 as [|oi l Hoi _ IH]; [done|].
  by rewrite filter_cons_False.
Qed.

(** [createOrder] has three kinds of answers, none of them a 404. *)
Lemma createOrder_status f u items st :
  http_status (createOrder f u items st).1 = 400
  \/ http_status (createOrder f u items st).1 = 500
  \/ http_status (createOrder f u items st).1 = 201.
Proof.
  unfold createOrder. destruct (negb (orderValidation items)); [by left|].
  destruct (verify_items f st items 0 []) as [r|[tot verified]] eqn:Hloop.
  - left. by eapply verify_items_inl.
  - destruct (orders_insert_fails f); [by right; left|].
    destruct (order_items_insert_fails f); [by right; left | by right; right].
Qed.

(** C9, observed on the code.  A request for a product the catalog does not
    have, and a request for a size the product does not come in, are both
    turned down by [createOrder] with the matching not-found message, yet
    under status 400 where the claim expects 404; nothing is stored. *)
Theorem createOrder_not_found_answers_400 :
  products shop !! 99 = None
  /\ createOrder reliable alice [mk_req_item 99 None 1 None] shop
     = ((400, ProductNotFound 99), shop)
  /\ product_sizes shop !! (1, "XXL") = None
  /\ createOrder reliable alice [mk_req_item 1 (Some "XXL") 1 None] shop
     = ((400, SizeNotFound "XXL" "kaos"), shop).
Proof. repeat split; reflexivity. Qed.

(** ** Handlers that leave the stock tables alone *)

(** [updateOrderStatus] writes the orders table and nothing else. *)
Lemma updateOrderStatus_keeps_stock f t id st :
  products (updateOrderStatus f t id st).2 = products st
  /\ product_sizes (updateOrderStatus f t id st).2 = product_sizes st.
Proof.
  unfold updateOrderStatus.
  destruct (negb (statusValidation t)); [done|].
  destruct (select_order f st id) as [o|]; [|done].
  destruct (validStatusTransitions (status o)) as [l|]; [|done].
  destruct (negb (includes l t)); [done|].
  by destruct (orders_update_fails f).
Qed.

Lemma getOrderById_keeps_store f u id st : (getOrderById f u id st).2 = st.
Proof.
  unfold getOrderById. destruct (orders_select_fails f); [done|].
  destruct (scoped_order u id st); [|done].
  destruct (order_items_select_fails f); [done|].
  by destruct (forallb _ _).
Qed.

(** ** Release on every transition to cancelled *)

(** C6, observed on the code.  Alice's order of three pieces is pending and
    the counter of product 1 reads two.  When an admin moves the order to
    [cancelled] through the status route, the answer is 200, the stored
    status is [cancelled], and the counter still reads two: the status
    update has no release loop at all, where [cancelOrder] has one. *)
Theorem updateOrderStatus_cancel_skips_release :
  (put_order_status reliable root "cancelled" 1 shop_reserved).1
  = (200, StatusUpdated (mk_order 7 300 "cancelled"))
  /\ orders (put_order_status reliable root "cancelled" 1 shop_reserved).2 !! 1
     = Some (mk_order 7 300 "cancelled")
  /\ stock <$> products
       (put_order_status reliable root "cancelled" 1 shop_reserved).2 !! 1
     = Some 2.
Proof. repeat split; reflexivity. Qed.

(** * Further properties of the order handlers *)

(** ** createOrder, path by path *)

(** The ways through [createOrder]: validation fails; a line fails; the
    insert of the header fails; the insert of the items fails and the
    compensating delete fails as well, or goes through; the order is
    written. *)
Ltac createOrder_paths f st items Hloop :=
  unfold createOrder;
  destruct (negb (orderValidation items)) eqn:?;
    [|destruct (verify_items f st items 0 []) as [?r|[?tot ?verified]] eqn:Hloop;
      [|destruct (orders_insert_fails f) eqn:?;
        [|destruct (order_items_insert_fails f) eqn:?;
          [destruct (orders_delete_fails f) eqn:?|]]]].

Lemma truthy_size_or_null s : truthy (size_or_null s) = truthy s.
Proof. unfold size_or_null. by destruct (truthy s) eqn:E. Qed.

Lemma size_or_null_idem s : size_or_null (size_or_null s) = size_or_null s.
Proof.
  unfold size_or_null at 1. rewrite truthy_size_or_null.
  unfold size_or_null. by destruct (truthy s).
Qed.

Lemma size_label_size_or_null s :
  truthy s = true -> size_label (size_or_null s) = size_label s.
Proof. unfold size_or_null. by intros ->. Qed.

Lemma verify_items_verified f st items acc vs total verified :
  verify_items f st items acc vs = inr (total, verified) ->
  verified = vs ++ map (verified_of st) items
  /\ Forall (fun it => exists v, verify_item f st it = inr v) items.
Proof.
  revert acc vs. induction items as [|it items IH]; intros acc vs.
  - simpl. intros [= <- <-]. by rewrite app_nil_r.
  - simpl. destruct (verify_item f st it) as [r'|v] eqn:Hit; [done|].
    destruct (verify_item_inr _ _ _ _ Hit) as [Hv _].
    intros Hrest. destruct (IH _ _ Hrest) as (-> & Hall).
    split; [|constructor; eauto].
    rewrite <- app_assoc. simpl. by rewrite Hv.
Qed.

(** What a 201 tells about the run that produced it. *)
Lemma createOrder_created f u items st oid total st' :
  createOrder f u items st = ((201, OrderCreated oid total), st') ->
  orderValidation items = true
  /\ Forall (fun it => exists v, verify_item f st it = inr v) items
  /\ oid = next_order_id st
  /\ st' = reserve (map (verified_of st) items)
             (mk_store (products st) (product_sizes st)
                (<[oid := mk_order (u_user_id u) total "pending"]> (orders st))
                (order_items st ++ map (to_order_item oid) (map (verified_of st) items))
                (oid + 1)).
Proof.
  createOrder_paths f st items Hloop; try done.
  - intros [= Hr _]. apply verify_items_inl in Hloop. by rewrite Hr in Hloop.
  - intros [= <- <- <-].
    destruct (verify_items_verified _ _ _ _ _ _ _ Hloop) as [-> Hall].
    split; [by destruct (orderValidation items)|]. done.
Qed.

(** X1. A request that [createOrder] turns down with a 400, whatever the
    reason, has no effect on the store at all. *)
Theorem createOrder_rejection_is_pure f u items st :
  http_status (createOrder f u items st).1 = 400 ->
  (createOrder f u items st).2 = st.
Proof. createOrder_paths f st items Hloop; done. Qed.

Lemma createOrder_rejection_is_pure_witness :
  http_status (createOrder reliable alice [mk_req_item 1 None 6 None] shop).1 = 400
  /\ (createOrder reliable alice [mk_req_item 1 None 6 None] shop).2 = shop.
Proof.
  split; [reflexivity|].
  apply (createOrder_rejection_is_pure reliable alice [mk_req_item 1 None 6 None] shop).
  reflexivity.
Defined.

(** X2. When the store fails while the order is being written (a 500), no
    stock counter moves, no order item is stored and no other order is
    touched.  When it was the insert of the items that failed, the handler
    tries to delete the header written just before: the header is gone if
    that delete went through, and stays behind as a pending order without
    items if the delete failed as well. *)
Theorem createOrder_store_failure f u items st :
  http_status (createOrder f u items st).1 = 500 ->
  products (createOrder f u items st).2 = products st
  /\ product_sizes (createOrder f u items st).2 = product_sizes st
  /\ order_items (createOrder f u items st).2 = order_items st
  /\ (forall j, j <> next_order_id st ->
        orders (createOrder f u items st).2 !! j = orders st !! j)
  /\ ((createOrder f u items st).1.2 = OrderItemsInsertFailed ->
        if orders_delete_fails f
        then exists total,
               orders (createOrder f u items st).2 !! next_order_id st
               = Some (mk_order (u_user_id u) total "pending")
        else orders (createOrder f u items st).2 !! next_order_id st = None).
Proof.
  createOrder_paths f st items Hloop; simpl; try done.
  - intros Hr. apply verify_items_inl in Hloop. unfold http_status in *. lia.
  - intros _. repeat split; try done.
    + intros j Hj. by rewrite lookup_insert_ne.
    + intros _. eexists. apply lookup_insert_eq.
  - intros _. repeat split; try done.
    + intros j Hj. by rewrite lookup_delete_ne, lookup_insert_ne.
    + intros _. apply lookup_delete_eq.
Qed.

Lemma createOrder_store_failure_witness :
  (createOrder
     (mk_faults (fun _ => false) (fun _ _ => false) false false false true false false)
     alice [mk_req_item 1 None 3 None] shop).1 = (500, OrderItemsInsertFailed)
  /\ orders (createOrder
       (mk_faults (fun _ => false) (fun _ _ => false) false false false true false false)
       alice [mk_req_item 1 None 3 None] shop).2 !! 1 = None
  /\ exists total,
       orders (createOrder
         (mk_faults (fun _ => false) (fun _ _ => false) false false false true false true)
         alice [mk_req_item 1 None 3 None] shop).2 !! 1
       = Some (mk_order 7 total "pending").
Proof.
  split; [reflexivity|]. split.
  - destruct (createOrder_store_failure
                (mk_faults (fun _ => false) (fun _ _ => false)
                           false false false true false false)
                alice [mk_req_item 1 None 3 None] shop) as (_ & _ & _ & _ & Hgone);
      [reflexivity|].
    apply Hgone. reflexivity.
  - destruct (createOrder_store_failure
                (mk_faults (fun _ => false) (fun _ _ => false)
                           false false false true false true)
                alice [mk_req_item 1 None 3 None] shop) as (_ & _ & _ & _ & Hleft);
      [reflexivity|].
    apply Hleft. reflexivity.
Defined.

(** X3. [createOrder] answers with the validation errors, and touches
    nothing, when the list of items is empty or some item has a product id or
    a quantity below one. *)
Theorem createOrder_invalid_request f u items st :
  items = [] \/ Exists (fun it => product_id it < 1 \/ quantity it < 1) items ->
  createOrder f u items st = ((400, ValidationErrors), st).
Proof.
  intros Hbad. unfold createOrder.
  assert (orderValidation items = false) as ->; [|done].
  unfold orderValidation. destruct Hbad as [->|Hbad]; [done|].
  apply andb_false_iff. right.
  induction Hbad as [it items [Hit|Hit]|it items _ IH]; simpl.
  - assert ((1 <=? product_id it) = false) as -> by (apply Z.leb_gt; lia). done.
  - assert ((1 <=? quantity it) = false) as -> by (apply Z.leb_gt; lia).
    by rewrite andb_false_r.
  - by rewrite IH, andb_false_r.
Qed.

Lemma createOrder_invalid_request_witness :
  createOrder reliable alice [] shop = ((400, ValidationErrors), shop)
  /\ createOrder reliable alice [mk_req_item 1 None 2 None; mk_req_item 2 None 0 None] shop
     = ((400, ValidationErrors), shop).
Proof.
  split.
  - apply (createOrder_invalid_request reliable alice [] shop). left. reflexivity.
  - apply (createOrder_invalid_request reliable alice
             [mk_req_item 1 None 2 None; mk_req_item 2 None 0 None] shop).
    right. apply Exists_cons_tl, Exists_cons_hd. right. simpl. lia.
Defined.

Lemma without_empty_size_spec it :
  without_empty_size it
  = mk_req_item (product_id it) (size_or_null (size it)) (quantity it) (ri_price it).
Proof. unfold without_empty_size. by destruct (size it) as [[|c s]|]. Qed.

(** X4. An item whose [size] field holds the empty string is handled exactly
    like the same item without a [size] field: it is checked against the
    general stock of the product and stored with no size.  Leaving out every
    empty [size] in a request changes neither the answer nor the resulting
    store. *)
Theorem createOrder_empty_size_is_no_size f u items st :
  createOrder f u (map without_empty_size items) st = createOrder f u items st.
Proof.
  unfold createOrder.
  assert (Hval : orderValidation (map without_empty_size items) = orderValidation items).
  { unfold orderValidation. rewrite length_map. f_equal.
    induction items as [|it items IH]; [done|]. simpl. by rewrite IH. }
  assert (Hitem : forall it, verify_item f st (without_empty_size it) = verify_item f st it).
  { intros it. rewrite without_empty_size_spec. unfold verify_item. simpl.
    destruct (select_product f st (product_id it)); [|done].
    rewrite truthy_size_or_null, size_or_null_idem.
    destruct (truthy (size it)) eqn:Ht; [|done].
    by rewrite (size_label_size_or_null _ Ht). }
  assert (Hloop : forall acc vs,
             verify_items f st (map without_empty_size items) acc vs
             = verify_items f st items acc vs).
  { clear Hval. induction items as [|it items IH]; intros acc vs; [done|].
    simpl. rewrite Hitem. destruct (verify_item f st it); [done|]. apply IH. }
  by rewrite Hval, Hloop.
Qed.

(** ** What an accepted order does to the stock *)

(** On none of its paths does [createOrder] write a stock table. *)
Lemma createOrder_keeps_stock f u items st :
  products (createOrder f u items st).2 = products st
  /\ product_sizes (createOrder f u items st).2 = product_sizes st.
Proof.
  createOrder_paths f st items Hloop; simpl; try done.
  by rewrite reserve_writes_nothing.
Qed.

(** X5. An accepted order takes nothing off the stock: each line was checked
    against its counter, but after the 201 both stock tables are exactly what
    they were before the request. *)
Theorem createOrder_stock_effect f u items st oid total st' :
  createOrder f u items st = ((201, OrderCreated oid total), st') ->
  products st' = products st /\ product_sizes st' = product_sizes st.
Proof.
  intros Hrun. pose proof (createOrder_keeps_stock f u items st) as Hkeep.
  by rewrite Hrun in Hkeep.
Qed.

Lemma createOrder_stock_effect_witness :
  createOrder reliable alice
    [mk_req_item 2 (Some "M") 1 None; mk_req_item 2 None 2 None] shop
  = ((201, OrderCreated 1 750),
     (createOrder reliable alice
        [mk_req_item 2 (Some "M") 1 None; mk_req_item 2 None 2 None] shop).2)
  /\ products (createOrder reliable alice
        [mk_req_item 2 (Some "M") 1 None; mk_req_item 2 None 2 None] shop).2 !! 2
     = Some (mk_product "celana" 250 3)
  /\ product_sizes (createOrder reliable alice
        [mk_req_item 2 (Some "M") 1 None; mk_req_item 2 None 2 None] shop).2 !! (2, "M")
     = Some 2.
Proof.
  assert (Hrun : createOrder reliable alice
    [mk_req_item 2 (Some "M") 1 None; mk_req_item 2 None 2 None] shop
  = ((201, OrderCreated 1 750),
     (createOrder reliable alice
        [mk_req_item 2 (Some "M") 1 None; mk_req_item 2 None 2 None] shop).2))
    by reflexivity.
  split; [exact Hrun|].
  destruct (createOrder_stock_effect _ _ _ _ _ _ _ Hrun) as [Hp Hs].
  split; [rewrite Hp | rewrite Hs]; reflexivity.
Defined.

(** A line that passed the loop: its product exists and the counter located
    for it holds at least the quantity asked. *)
Lemma verify_item_passed f st it v :
  verify_item f st it = inr v ->
  is_Some (products st !! product_id it)
  /\ exists s, located_stock st it = Some s /\ quantity it <= s.
Proof.
  unfold verify_item, select_product, select_size, located_stock.
  destruct (products_select_fails f _); [done|].
  destruct (products st !! product_id it) as [prod|]; [|done]. simpl.
  intros Hv. split; [by eexists|]. revert Hv.
  destruct (truthy (size it)).
  - destruct (product_sizes_select_fails f _ _); [done|].
    destruct (product_sizes st !! _) as [s|]; [|done].
    destruct (Z.ltb_spec s (quantity it)); [done|]. intros _. by exists s.
  - destruct (Z.ltb_spec (stock prod) (quantity it)); [done|].
    intros _. by eexists.
Qed.

(** X6. A 201 is only given when the request is well formed and every line,
    taken on its own, passed: the list is not empty, ids and quantities are
    at least one, the product of the line exists, and the counter located
    for the line holds at least the quantity asked. *)
Theorem createOrder_accepts_only_checked_lines f u items st oid total st' :
  createOrder f u items st = ((201, OrderCreated oid total), st') ->
  items <> []
  /\ Forall (fun it =>
       1 <= product_id it /\ 1 <= quantity it
       /\ is_Some (products st !! product_id it)
       /\ exists s, located_stock st it = Some s /\ quantity it <= s) items.
Proof.
  intros Hrun. apply createOrder_created in Hrun as (Hval & Hall & _ & _).
  unfold orderValidation in Hval. apply andb_true_iff in Hval as [Hne Hval].
  split; [by destruct items|].
  rewrite forallb_forall in Hval. rewrite Forall_forall in Hall |- *.
  intros it Hit. specialize (Hval it (proj1 (list_elem_of_In _ _) Hit)).
  apply andb_true_iff in Hval as [Hp Hq].
  apply Z.leb_le in Hp, Hq. split; [done|]. split; [done|].
  destruct (Hall it Hit) as [v Hv]. by eapply verify_item_passed.
Qed.

Lemma createOrder_accepts_only_checked_lines_witness :
  Forall (fun it =>
       1 <= product_id it /\ 1 <= quantity it
       /\ is_Some (products shop !! product_id it)
       /\ exists s, located_stock shop it = Some s /\ quantity it <= s)
    [mk_req_item 1 None 3 None].
Proof.
  apply (createOrder_accepts_only_checked_lines reliable alice
           [mk_req_item 1 None 3 None] shop 1 300 shop_after_order).
  reflexivity.
Defined.

(** ** Orders and order items that are not involved *)

Lemma release_order_items l st : order_items (release l st) = order_items st.
Proof.
  revert st. induction l as [|a l IH]; intros st; [done|].
  simpl. rewrite IH. unfold release_item. by destruct (truthy (oi_size a)).
Qed.

(** X8. Whatever its answer, [createOrder] leaves every order other than the
    one it is creating as it was, header and items. *)
Theorem createOrder_leaves_other_orders f u items st j :
  j <> next_order_id st ->
  orders (createOrder f u items st).2 !! j = orders st !! j
  /\ items_of_order (createOrder f u items st).2 j = items_of_order st j.
Proof.
  intros Hj. createOrder_paths f st items Hloop; simpl; try done.
  - split; [|done]. by rewrite lookup_insert_ne.
  - unfold set_orders. simpl. split; [|done].
    by rewrite lookup_delete_ne, lookup_insert_ne.
  - rewrite reserve_orders. simpl. rewrite lookup_insert_ne by done.
    split; [done|]. unfold items_of_order.
    rewrite reserve_order_items. simpl. rewrite filter_app.
    rewrite (filter_order_id_fresh j (map _ verified)), app_nil_r; [done|].
    rewrite Forall_forall. intros oi Hoi.
    apply list_elem_of_In, in_map_iff in Hoi as (v & <- & _). simpl. congruence.
Qed.

Lemma createOrder_leaves_other_orders_witness :
  orders (createOrder reliable bob [mk_req_item 2 None 1 None] shop_after_order).2 !! 1
  = Some (mk_order 7 300 "pending")
  /\ items_of_order
       (createOrder reliable bob [mk_req_item 2 None 1 None] shop_after_order).2 1
     = [mk_order_item 1 1 None 3 100].
Proof.
  destruct (createOrder_leaves_other_orders reliable bob
              [mk_req_item 2 None 1 None] shop_after_order 1) as [Ho Hi];
    [discriminate|].
  split; [rewrite Ho | rewrite Hi]; reflexivity.
Defined.

(** X9. The four handlers keep the stored order items at quantities of at
    least one: [createOrder] only stores quantities that passed validation,
    and the other three never write an order item. *)
Theorem handlers_keep_items_positive f u items t id st :
  items_positive st ->
  items_positive (createOrder f u items st).2
  /\ items_positive (updateOrderStatus f t id st).2
  /\ items_positive (cancelOrder f u id st).2
  /\ items_positive (getOrderById f u id st).2.
Proof.
  unfold items_positive. intros Hpos. repeat split.
  - createOrder_paths f st items Hloop; simpl; try done.
    rewrite reserve_order_items. simpl. apply Forall_app. split; [done|].
    destruct (verify_items_verified _ _ _ _ _ _ _ Hloop) as [-> _]. simpl.
    assert (Hval : orderValidation items = true) by by destruct (orderValidation items).
    unfold orderValidation in Hval. apply andb_true_iff in Hval as [_ Hval].
    rewrite forallb_forall in Hval. rewrite Forall_forall. intros oi Hoi.
    apply list_elem_of_In, in_map_iff in Hoi as (v & <- & Hv).
    apply in_map_iff in Hv as (it & <- & Hit). simpl.
    specialize (Hval it Hit). apply andb_true_iff in Hval as [_ Hq].
    by apply Z.leb_le.
  - unfold updateOrderStatus.
    destruct (negb (statusValidation t)); [done|].
    destruct (select_order f st id) as [o|]; [|done].
    destruct (validStatusTransitions (status o)) as [l|]; [|done].
    destruct (negb (includes l t)); [done|].
    by destruct (orders_update_fails f).
  - unfold cancelOrder.
    destruct (select_order f st id) as [o|]; [|done].
    destruct (_ && _); [done|]. destruct (_ && _); [done|].
    destruct (orders_update_fails f); [done|]. simpl.
    destruct (order_items_select_fails f); [done|].
    by rewrite release_order_items.
  - by rewrite getOrderById_keeps_store.
Qed.

Lemma handlers_keep_items_positive_witness :
  items_positive shop
  /\ items_positive (createOrder reliable alice [mk_req_item 1 None 3 None] shop).2.
Proof.
  assert (Hshop : items_positive shop) by constructor.
  split; [exact Hshop|].
  apply (handlers_keep_items_positive reliable alice
           [mk_req_item 1 None 3 None] "shipped" 1 shop Hshop).
Defined.

(** ** What a status update can and cannot do *)

(** Case analysis on the first comparison of strings left in the goal. *)
Ltac case_string_eqb :=
  match goal with
  | |- context [String.eqb ?a ?b] =>
      destruct (String.eqb_spec a b) as [->|?]; simpl
  end.

Lemma allowed_true_spec_transition s t : allowed s t = true -> spec_transition s t.
Proof.
  unfold allowed, validStatusTransitions, includes.
  repeat case_string_eqb; try done; intros _; constructor.
Qed.

(** Every way [updateOrderStatus] can end. *)
Lemma updateOrderStatus_inv f t id st :
  (http_status (updateOrderStatus f t id st).1 <> 200
   /\ (updateOrderStatus f t id st).2 = st)
  \/ exists o, orders st !! id = Some o
       /\ spec_transition (status o) t
       /\ updateOrderStatus f t id st
          = ((200, StatusUpdated (set_status t o)),
             set_orders (<[id := set_status t o]> (orders st)) st).
Proof.
  unfold updateOrderStatus, select_order.
  destruct (negb (statusValidation t)); [by left|].
  destruct (orders_select_fails f); [by left|].
  destruct (orders st !! id) as [o|] eqn:Ho; [|by left].
  destruct (validStatusTransitions (status o)) as [l|] eqn:Hl; [|by left].
  destruct (includes l t) eqn:Hin; simpl; [|by left].
  destruct (orders_update_fails f); [by left|].
  right. exists o. split; [done|]. split.
  - apply allowed_true_spec_transition. unfold allowed. by rewrite Hl.
  - by rewrite (alter_present _ _ _ o).
Qed.

(** X10. All [updateOrderStatus] ever does to the store is to rewrite the
    status of the one order it is called for, along an arrow of the
    transition table, and only when it answers 200: owner, total, the other
    orders, the order items and both stock tables stay as they were; with any
    other answer the store is untouched. *)
Theorem updateOrderStatus_only_rewrites_status f t id st :
  (http_status (updateOrderStatus f t id st).1 <> 200
   /\ (updateOrderStatus f t id st).2 = st)
  \/ exists o, orders st !! id = Some o
       /\ spec_transition (status o) t
       /\ updateOrderStatus f t id st
          = ((200, StatusUpdated (mk_order (user_id o) (total_price o) t)),
             mk_store (products st) (product_sizes st)
               (<[id := mk_order (user_id o) (total_price o) t]> (orders st))
               (order_items st) (next_order_id st)).
Proof. apply updateOrderStatus_inv. Qed.

(** X11. When the status stored for an order is none of the eight statuses,
    no status update gets through: reading the transition table at that key
    gives nothing to search in, and the request ends in the catch block with
    a 500 and an untouched store. *)
Theorem updateOrderStatus_unknown_stored_status f t id st o :
  orders_select_fails f = false ->
  orders st !! id = Some o ->
  ~ In (status o) all_statuses -> In t all_statuses ->
  updateOrderStatus f t id st = ((500, ServerError), st).
Proof.
  intros Hsel Ho Hs Ht. unfold updateOrderStatus, select_order.
  rewrite (statusValidation_all_statuses t Ht), Hsel, Ho. simpl.
  assert (validStatusTransitions (status o) = None) as ->; [|done].
  unfold validStatusTransitions.
  repeat (match goal with
          | |- context [String.eqb (status o) ?b] =>
              destruct (String.eqb_spec (status o) b) as [Heq|_];
              [destruct Hs; rewrite Heq; simpl; tauto|]
          end).
  done.
Qed.

Lemma updateOrderStatus_unknown_stored_status_witness :
  updateOrderStatus reliable "processing" 4
    (set_orders (<[4 := mk_order 7 100 "paid"]> (orders shop)) shop)
  = ((500, ServerError),
     set_orders (<[4 := mk_order 7 100 "paid"]> (orders shop)) shop).
Proof.
  apply (updateOrderStatus_unknown_stored_status reliable "processing" 4
           (set_orders (<[4 := mk_order 7 100 "paid"]> (orders shop)) shop)
           (mk_order 7 100 "paid")).
  - reflexivity.
  - reflexivity.
  - simpl. intros H. repeat destruct H as [H|H]; discriminate || done.
  - simpl. tauto.
Defined.

(** X12. Through the status route a caller who is not an admin changes
    nothing: the [authorize] middleware answers 403 before the handler runs,
    whatever the order, its owner and the status asked for. *)
Theorem put_order_status_needs_admin f u t id st :
  role u <> "admin" ->
  put_order_status f u t id st = ((403, Forbidden), st).
Proof.
  intros Hrole. unfold put_order_status, authorize, includes. simpl.
  apply String.eqb_neq in Hrole. by rewrite Hrole.
Qed.

Lemma put_order_status_needs_admin_witness :
  put_order_status reliable alice "cancelled" 1 shop_after_order
  = ((403, Forbidden), shop_after_order).
Proof.
  apply (put_order_status_needs_admin reliable alice "cancelled" 1 shop_after_order).
  discriminate.
Defined.

(** ** What a cancel can and cannot do *)

(** Every way [cancelOrder] can end. *)
Lemma cancelOrder_inv f u id st :
  (http_status (cancelOrder f u id st).1 <> 200
   /\ (cancelOrder f u id st).2 = st)
  \/ exists o, orders st !! id = Some o
       /\ (role u = "admin" \/ user_id o = u_user_id u)
       /\ (status o = "pending" \/ status o = "processing")
       /\ cancelOrder f u id st
          = ((200, OrderCancelled (set_status "cancelled" o)),
             set_orders (<[id := set_status "cancelled" o]> (orders st)) st).
Proof.
  unfold cancelOrder, select_order.
  destruct (orders_select_fails f); [by left|].
  destruct (orders st !! id) as [o|] eqn:Ho; [|by left].
  destruct (String.eqb_spec (role u) "admin") as [Hrole|Hrole];
    destruct (Z.eqb_spec (user_id o) (u_user_id u)) as [Hown|Hown]; simpl;
    try (by left);
    (destruct (String.eqb_spec (status o) "pending") as [Hp|Hp];
     destruct (String.eqb_spec (status o) "processing") as [Hq|Hq]; simpl;
     try (by left);
     (destruct (orders_update_fails f); [by left|];
      right; exists o; rewrite (alter_present _ _ _ o Ho), release_writes_nothing;
      destruct (order_items_select_fails f); auto 10)).
Qed.

(** X13. A 200 from [cancelOrder] is only ever given to the owner of the
    order or to an admin, and only for an order that is [pending] or
    [processing]; all it then changes is the status of that order, which
    becomes [cancelled]: the other orders, the order items and both stock
    tables are as before, whether the items of the order could be read or
    not.  Any other answer leaves the store untouched. *)
Theorem cancelOrder_outcomes f u id st :
  (http_status (cancelOrder f u id st).1 <> 200
   /\ (cancelOrder f u id st).2 = st)
  \/ exists o, orders st !! id = Some o
       /\ (role u = "admin" \/ user_id o = u_user_id u)
       /\ (status o = "pending" \/ status o = "processing")
       /\ cancelOrder f u id st
          = ((200, OrderCancelled (mk_order (user_id o) (total_price o) "cancelled")),
             mk_store (products st) (product_sizes st)
               (<[id := mk_order (user_id o) (total_price o) "cancelled"]> (orders st))
               (order_items st) (next_order_id st)).
Proof. apply cancelOrder_inv. Qed.

(** X14. An admin can cancel the order of any user: when the store answers
    and the order is [pending] or [processing], the answer is 200 and the
    order is stored as [cancelled]; nothing else is written, so the stock
    tables stay as they were. *)
Theorem cancelOrder_by_admin f u id st o :
  orders_select_fails f = false -> orders_update_fails f = false ->
  order_items_select_fails f = false ->
  role u = "admin" ->
  orders st !! id = Some o ->
  status o = "pending" \/ status o = "processing" ->
  cancelOrder f u id st
  = ((200, OrderCancelled (set_status "cancelled" o)),
     mk_store (products st) (product_sizes st)
       (<[id := set_status "cancelled" o]> (orders st))
       (order_items st) (next_order_id st)).
Proof.
  intros Hsel Hupd Hitems Hrole Ho Hst.
  unfold cancelOrder, select_order. rewrite Hsel, Ho, Hupd, Hitems, Hrole. simpl.
  assert (negb (String.eqb (status o) "pending")
          && negb (String.eqb (status o) "processing") = false) as ->.
  { destruct Hst as [-> | ->]; done. }
  by rewrite release_writes_nothing, (alter_present _ _ _ o Ho).
Qed.

Lemma cancelOrder_by_admin_witness :
  (cancelOrder reliable root 1 shop_reserved).1
  = (200, OrderCancelled (mk_order 7 300 "cancelled"))
  /\ orders (cancelOrder reliable root 1 shop_reserved).2 !! 1
     = Some (mk_order 7 300 "cancelled")
  /\ products (cancelOrder reliable root 1 shop_reserved).2 !! 1
     = Some (mk_product "kaos" 100 2).
Proof.
  rewrite (cancelOrder_by_admin reliable root 1 shop_reserved
             (mk_order 7 300 "pending"));
    [| reflexivity | reflexivity | reflexivity | reflexivity | reflexivity
     | left; reflexivity].
  repeat split; reflexivity.
Defined.

(** X15. When the items of the order cannot be read back, [cancelOrder]
    still answers 200 and stores the status [cancelled], but no stock is
    given back: both stock tables are exactly as before the request. *)
Theorem cancelOrder_items_unreadable_keeps_stock f u id st o :
  orders_select_fails f = false -> orders_update_fails f = false ->
  order_items_select_fails f = true ->
  role u = "admin" \/ user_id o = u_user_id u ->
  orders st !! id = Some o ->
  status o = "pending" \/ status o = "processing" ->
  cancelOrder f u id st
  = ((200, OrderCancelled (set_status "cancelled" o)),
     mk_store (products st) (product_sizes st)
       (<[id := set_status "cancelled" o]> (orders st))
       (order_items st) (next_order_id st)).
Proof.
  intros Hsel Hupd Hitems Hwho Ho Hst.
  unfold cancelOrder, select_order. rewrite Hsel, Ho, Hupd, Hitems.
  assert (negb (String.eqb (role u) "admin")
          && negb (user_id o =? u_user_id u) = false) as ->.
  { destruct Hwho as [-> | ->]; [done|]. by rewrite Z.eqb_refl, andb_false_r. }
  assert (negb (String.eqb (status o) "pending")
          && negb (String.eqb (status o) "processing") = false) as ->.
  { destruct Hst as [-> | ->]; done. }
  by rewrite (alter_present _ _ _ o Ho).
Qed.

Lemma cancelOrder_items_unreadable_keeps_stock_witness :
  (cancelOrder
     (mk_faults (fun _ => false) (fun _ _ => false) false false false false true false)
     alice 1 shop_reserved).1
  = (200, OrderCancelled (mk_order 7 300 "cancelled"))
  /\ products (cancelOrder
       (mk_faults (fun _ => false) (fun _ _ => false) false false false false true false)
       alice 1 shop_reserved).2 !! 1
     = Some (mk_product "kaos" 100 2).
Proof.
  rewrite (cancelOrder_items_unreadable_keeps_stock
             (mk_faults (fun _ => false) (fun _ _ => false)
                        false false false false true false)
             alice 1 shop_reserved (mk_order 7 300 "pending"));
    [| reflexivity | reflexivity | reflexivity | right; reflexivity
     | reflexivity | left; reflexivity].
  split; reflexivity.
Defined.

(** X17. A cancelled order stays cancelled: after a cancel that was answered
    200, no later cancel and no later status update for that order, by
    whomever, is answered 200 or changes the store. *)
Theorem cancelOrder_is_final f u id st f' u' t :
  http_status (cancelOrder f u id st).1 = 200 ->
  (http_status (cancelOrder f' u' id (cancelOrder f u id st).2).1 <> 200
   /\ (cancelOrder f' u' id (cancelOrder f u id st).2).2 = (cancelOrder f u id st).2)
  /\ (http_status (updateOrderStatus f' t id (cancelOrder f u id st).2).1 <> 200
      /\ (updateOrderStatus f' t id (cancelOrder f u id st).2).2
         = (cancelOrder f u id st).2).
Proof.
  intros Hok.
  destruct (cancelOrder_inv f u id st) as [[Hno _]|(o & _ & _ & _ & Hrun)]; [done|].
  assert (Hnow : orders (cancelOrder f u id st).2 !! id
                 = Some (set_status "cancelled" o)).
  { rewrite Hrun. simpl. apply lookup_insert_eq. }
  split.
  - destruct (cancelOrder_inv f' u' id (cancelOrder f u id st).2)
      as [?|(o' & Ho' & _ & Hst & _)]; [done|].
    rewrite Hnow in Ho'. injection Ho' as <-. simpl in Hst.
    by destruct Hst.
  - destruct (updateOrderStatus_inv f' t id (cancelOrder f u id st).2)
      as [?|(o' & Ho' & Htr & _)]; [done|].
    rewrite Hnow in Ho'. injection Ho' as <-. simpl in Htr. inversion Htr.
Qed.

Lemma cancelOrder_is_final_witness :
  http_status (cancelOrder reliable alice 1 shop_after_order).1 = 200
  /\ (cancelOrder reliable root 1 (cancelOrder reliable alice 1 shop_after_order).2).2
     = (cancelOrder reliable alice 1 shop_after_order).2
  /\ (updateOrderStatus reliable "processing" 1
        (cancelOrder reliable alice 1 shop_after_order).2).2
     = (cancelOrder reliable alice 1 shop_after_order).2.
Proof.
  split; [reflexivity|].
  destruct (cancelOrder_is_final reliable alice 1 shop_after_order
              reliable root "processing") as [[_ H1] [_ H2]]; [reflexivity|].
  split; [exact H1 | exact H2].
Defined.

(** ** The life of an order *)

Lemma status_rank_bounds s : 0 <= status_rank s <= 5.
Proof. unfold status_rank. repeat case_string_eqb; lia. Qed.

Lemma spec_transition_rank s t : spec_transition s t -> status_rank s < status_rank t.
Proof. by destruct 1. Qed.

(** One request either changes nothing, or is answered 200 and moves the
    order to a status of higher rank. *)
Lemma run_op_step id op st :
  (http_status (run_op id op st).1 <> 200 /\ (run_op id op st).2 = st)
  \/ (http_status (run_op id op st).1 = 200
      /\ exists o o', orders st !! id = Some o
           /\ orders (run_op id op st).2 !! id = Some o'
           /\ status_rank (status o) < status_rank (status o')).
Proof.
  destruct op as [f t|f u]; simpl.
  - destruct (updateOrderStatus_inv f t id st) as [?|(o & Ho & Htr & ->)]; [by left|].
    right. split; [done|]. exists o, (set_status t o).
    split; [done|]. split; [simpl; apply lookup_insert_eq|].
    by apply spec_transition_rank.
  - destruct (cancelOrder_inv f u id st) as [?|(o & Ho & _ & Hst & ->)]; [by left|].
    right. split; [done|]. exists o, (set_status "cancelled" o).
    split; [done|]. split.
    + simpl. apply lookup_insert_eq.
    + simpl. by destruct Hst as [-> | ->].
Qed.

(** What is left of the life of the order: the distance of its status to the
    top rank. *)
Lemma run_ops_accepted_bound id ops st :
  Z.of_nat (accepted (run_ops id ops st).1)
  <= match orders st !! id with
     | Some o => 5 - status_rank (status o)
     | None => 0
     end.
Proof.
  revert st. induction ops as [|op ops IH]; intros st.
  - simpl. destruct (orders st !! id) as [o|]; [|done].
    pose proof (status_rank_bounds (status o)). unfold accepted. simpl. lia.
  - simpl. destruct (run_op id op st) as [r st1] eqn:Hop.
    specialize (IH st1). destruct (run_ops id ops st1) as [rs st2]. simpl in *.
    pose proof (run_op_step id op st) as Hstep. rewrite Hop in Hstep. simpl in Hstep.
    unfold accepted in *.
    destruct Hstep as [[Hno ->]|(Hyes & o & o' & Ho & Ho' & Hrank)].
    + by rewrite filter_cons_False.
    + rewrite filter_cons_True by done. rewrite Ho. rewrite Ho' in IH.
      simpl. lia.
Qed.

(** X18. The status of an order only moves forward along the table, so an
    order takes at most five changes of status in its whole life: among the
    answers to any sequence of status updates and cancels for one order,
    handled one after the other by whichever callers and with whichever
    store failures, at most five are 200. *)
Theorem order_accepts_at_most_five_changes id ops st :
  (accepted (run_ops id ops st).1 <= 5)%nat.
Proof.
  pose proof (run_ops_accepted_bound id ops st) as Hb.
  destruct (orders st !! id) as [o|]; [|lia].
  pose proof (status_rank_bounds (status o)). lia.
Qed.

(** X19. An id that no order has is answered 404 by the status update, by
    the cancel and by the read alike, and nothing is written. *)
Theorem missing_order_is_not_found f u t id st :
  orders st !! id = None ->
  In t all_statuses ->
  orders_select_fails f = false ->
  updateOrderStatus f t id st = ((404, OrderNotFound), st)
  /\ cancelOrder f u id st = ((404, OrderNotFound), st)
  /\ getOrderById f u id st = ((404, OrderNotFound), st).
Proof.
  intros Hnone Ht Hsel. split; [|split].
  - unfold updateOrderStatus, select_order.
    by rewrite (statusValidation_all_statuses t Ht), Hsel, Hnone.
  - unfold cancelOrder, select_order. by rewrite Hsel, Hnone.
  - unfold getOrderById. by rewrite Hsel, scoped_order_absent.
Qed.

Lemma missing_order_is_not_found_witness :
  updateOrderStatus reliable "shipped" 9 shop_after_order
    = ((404, OrderNotFound), shop_after_order)
  /\ cancelOrder reliable root 9 shop_after_order
    = ((404, OrderNotFound), shop_after_order)
  /\ getOrderById reliable root 9 shop_after_order
    = ((404, OrderNotFound), shop_after_order).
Proof.
  apply (missing_order_is_not_found reliable root "shipped" 9 shop_after_order);
    [reflexivity | simpl; tauto | reflexivity].
Defined.

(** Five changes do happen: an order that is shipped, delivered, returned and
    refunded has used them all. *)
Lemma five_changes_are_possible :
  accepted
    (run_ops 1 [OpUpdateStatus reliable "processing"; OpUpdateStatus reliable "shipped";
                OpUpdateStatus reliable "delivered"; OpUpdateStatus reliable "returned";
                OpUpdateStatus reliable "refunded"] shop_after_order).1 = 5%nat.
Proof. reflexivity. Qed.

(** ** Reading an order one may see *)

(** X20. The owner of an order, and any admin, reads it with a 200 whose
    payload is the stored order together with the stored items that carry its
    id, all of them and no item of another order, provided the store answers
    and the product of every item is still in the catalog; the store is left
    as it was. *)
Theorem getOrderById_visible f u id st o :
  orders_select_fails f = false -> order_items_select_fails f = false ->
  orders st !! id = Some o ->
  role u = "admin" \/ user_id o = u_user_id u ->
  Forall (fun oi => is_Some (products st !! oi_product_id oi)) (items_of_order st id) ->
  exists items,
    getOrderById f u id st = ((200, OrderFound o items), st)
    /\ forall oi, In oi items <-> In oi (order_items st) /\ oi_order_id oi = id.
Proof.
  intros Hsel Hitems Ho Hwho Hprods. exists (items_of_order st id). split.
  - unfold getOrderById, scoped_order. rewrite Hsel, Ho, Hitems.
    assert (negb (String.eqb (role u) "admin")
            && negb (user_id o =? u_user_id u) = false) as ->.
    { destruct Hwho as [-> | ->]; [done|]. by rewrite Z.eqb_refl, andb_false_r. }
    assert (forallb (fun oi => bool_decide (is_Some (products st !! oi_product_id oi)))
              (items_of_order st id) = true) as ->; [|done].
    apply forallb_forall. rewrite Forall_forall in Hprods.
    intros oi Hoi. apply bool_decide_eq_true, Hprods. by apply list_elem_of_In.
  - intros oi. unfold items_of_order.
    rewrite <- !list_elem_of_In, list_elem_of_filter. tauto.
Qed.

Lemma getOrderById_visible_witness :
  exists items,
    getOrderById reliable alice 1 shop_after_order
    = ((200, OrderFound (mk_order 7 300 "pending") items), shop_after_order)
    /\ (In (mk_order_item 1 1 None 3 100) items).
Proof.
  destruct (getOrderById_visible reliable alice 1 shop_after_order
              (mk_order 7 300 "pending")) as (items & Hrun & Hitems);
    [reflexivity | reflexivity | reflexivity | right; reflexivity | |].
  - apply (bool_decide_unpack _). vm_compute. exact I.
  - exists items. split; [exact Hrun|]. apply Hitems. split; [|reflexivity].
    left. reflexivity.
Defined.

(** ** The role check *)

Lemma includes_In l x : includes l x = true <-> In x l.
Proof.
  unfold includes. rewrite existsb_exists. split.
  - intros (y & Hy & Heq). apply String.eqb_eq in Heq. by subst.
  - intros Hx. exists x. split; [done|]. apply String.eqb_refl.
Qed.

(** X21. The [authorize] middleware.  A request without a user is answered
    401.  A user gets through exactly when no role was asked for, or when the
    role of the user is among the roles asked for (is the role asked for,
    when just one was given as a string); every other user is answered
    403. *)
Theorem authorize_with_decides_by_role a u :
  authorize_with a None = Some (401, Unauthorized)
  /\ (authorize_with a (Some u) = None
      \/ authorize_with a (Some u) = Some (403, Forbidden))
  /\ (authorize_with a (Some u) = None <->
      match a with
      | NoRoles => True
      | OneRole r => role u = r
      | Roles rs => rs = [] \/ In (role u) rs
      end).
Proof.
  split; [done|]. unfold authorize_with, authorize. split.
  - destruct (_ && _); auto.
  - destruct a as [|r|rs].
    + done.
    + unfold includes. simpl. rewrite orb_false_r.
      destruct (String.eqb_spec (role u) r); simpl; split; done.
    + destruct rs as [|r rs]; [simpl; by split; auto|].
      destruct (includes (r :: rs) (role u)) eqn:Hin.
      * apply includes_In in Hin. split; [by right|done].
      * split; [done|]. intros [?|Hin']; [done|].
        apply includes_In in Hin'. congruence.
Qed.

(** ** Authentication and the routes *)

Lemma until_space_append t rest :
  (forall c, In c (String.list_ascii_of_string t) -> c <> Ascii.Space) ->
  until_space (String.append t (String Ascii.Space rest)) = t.
Proof.
  induction t as [|c t IH]; simpl; [done|]. intros Hno.
  destruct (Ascii.eqb_spec c Ascii.Space) as [->|_].
  - destruct (Hno Ascii.Space); auto.
  - rewrite IH; [done|]. intros c' Hc'. apply Hno. by right.
Qed.

Lemma until_space_no_space t :
  (forall c, In c (String.list_ascii_of_string t) -> c <> Ascii.Space) ->
  until_space t = t.
Proof.
  induction t as [|c t IH]; simpl; [done|]. intros Hno.
  destruct (Ascii.eqb_spec c Ascii.Space) as [->|_].
  - destruct (Hno Ascii.Space); auto.
  - rewrite IH; [done|]. intros c' Hc'. apply Hno. by right.
Qed.

Lemma prefix_bearer t : String.prefix "Bearer " (String.append "Bearer " t) = true.
Proof. by destruct t. Qed.

(** X22. The token is read back from the header as the client put it there:
    for a token without a space, the header made of [Bearer], a space and the
    token gives that very token, and whatever follows a further space is
    ignored. *)
Theorem bearer_token_roundtrip token rest :
  (forall c, In c (String.list_ascii_of_string token) -> c <> Ascii.Space) ->
  bearer_token (String.append "Bearer " token) = Some token
  /\ bearer_token
       (String.append "Bearer " (String.append token (String Ascii.Space rest)))
     = Some token.
Proof.
  intros Hno. unfold bearer_token. rewrite !prefix_bearer. split.
  - change (drop_chars 7 (String.append "Bearer " token)) with token.
    by rewrite until_space_no_space.
  - change (drop_chars 7 (String.append "Bearer " ?t)) with t.
    by rewrite until_space_append.
Qed.

Lemma bearer_token_roundtrip_witness :
  bearer_token "Bearer eyJhbGciOi.eyJpZCI6N30.c2ln" = Some "eyJhbGciOi.eyJpZCI6N30.c2ln".
Proof.
  apply (bearer_token_roundtrip "eyJhbGciOi.eyJpZCI6N30.c2ln" "").
  simpl. intros c H. repeat destruct H as [<-|H]; discriminate || done.
Defined.

(** What a request that got through tells. *)
Lemma authenticate_accepts_inv vt users ufail h u :
  authenticate vt users ufail h = inr u ->
  exists header token,
    h = Some header /\ bearer_token header = Some token
    /\ vt token = Some (Some (u_user_id u))
    /\ ufail = false /\ users !! u_user_id u = Some (role u).
Proof.
  unfold authenticate.
  destruct h as [header|]; [|done].
  destruct (bearer_token header) as [token|] eqn:Htok; [|done].
  destruct (vt token) as [[uid|]|] eqn:Hvt; destruct ufail; try done.
  destruct (users !! uid) as [r|] eqn:Hu; [|done].
  intros [= <-]. by exists header, token.
Qed.

(** X23. [authenticate] lets a request through exactly when its header
    carries a bearer token that verifies, the payload of the token has an id,
    and the users table, which answers, has a row for that id; the user the
    handlers then see has that id and the role the table holds now. *)
Theorem authenticate_accepts vt users ufail h u :
  authenticate vt users ufail h = inr u <->
  exists header token,
    h = Some header /\ bearer_token header = Some token
    /\ vt token = Some (Some (u_user_id u))
    /\ ufail = false /\ users !! u_user_id u = Some (role u).
Proof.
  split; [apply authenticate_accepts_inv|].
  unfold authenticate.
  intros (header & token & -> & -> & -> & -> & ->). by destruct u.
Qed.

(** X24. Through the status route the store only changes for a caller whom
    the users table lists as an admin at the time of the request: a token
    that does not verify, a user whose row is gone and a user who is no
    admin (any more) all leave the store as it is. *)
Theorem status_route_changes_only_for_admins vt users ufail f h id t st :
  (order_routes vt users ufail f h (PutStatus id t) st).2 <> st ->
  exists header token uid,
    h = Some header /\ bearer_token header = Some token
    /\ vt token = Some (Some uid) /\ users !! uid = Some "admin".
Proof.
  unfold order_routes.
  destruct (authenticate vt users ufail h) as [e|u] eqn:Hauth; [done|].
  apply authenticate_accepts_inv in Hauth
    as (header & token & -> & Htok & Hvt & _ & Hrole).
  unfold dispatch, put_order_status, authorize, includes. simpl.
  destruct (String.eqb_spec (role u) "admin") as [Hadmin|_]; simpl; [|done].
  intros _. exists header, token, (u_user_id u). by rewrite <- Hadmin.
Qed.

Lemma status_route_changes_only_for_admins_witness :
  (order_routes sample_verifyToken sample_users false reliable
     (Some "Bearer t-root") (PutStatus 1 "processing") shop_after_order).2
  <> shop_after_order
  /\ (order_routes sample_verifyToken (<[1 := "customer"]> sample_users) false reliable
        (Some "Bearer t-root") (PutStatus 1 "processing") shop_after_order).2
     = shop_after_order
  /\ exists header token uid,
       Some "Bearer t-root" = Some header /\ bearer_token header = Some token
       /\ sample_verifyToken token = Some (Some uid)
       /\ sample_users !! uid = Some "admin".
Proof.
  assert (Hchanged :
    (order_routes sample_verifyToken sample_users false reliable
       (Some "Bearer t-root") (PutStatus 1 "processing") shop_after_order).2
    <> shop_after_order).
  { intros Heq. apply (f_equal (fun s => status <$> orders s !! 1)) in Heq.
    vm_compute in Heq. discriminate. }
  split; [exact Hchanged|]. split; [reflexivity|].
  exact (status_route_changes_only_for_admins _ _ _ _ _ _ _ _ Hchanged).
Defined.

(** ** Order ids *)

Lemma reserve_next_order_id vs st : next_order_id (reserve vs st) = next_order_id st.
Proof.
  revert st. induction vs as [|v vs IH]; intros st; [done|].
  simpl. rewrite IH. unfold reserve_item. by destruct (truthy (vi_size v)).
Qed.

Lemma createOrder_keeps_ids_below_next f u items st :
  ids_below_next st -> ids_below_next (createOrder f u items st).2.
Proof.
  intros [Hord Hitems]. createOrder_paths f st items Hloop; simpl; try done.
  - split; simpl.
    + intros j Hj. rewrite lookup_insert_ne by lia. apply Hord. lia.
    + eapply Forall_impl; [exact Hitems|]. simpl. intros. lia.
  - split; simpl.
    + intros j Hj. rewrite lookup_delete_ne, lookup_insert_ne by lia.
      apply Hord. lia.
    + eapply Forall_impl; [exact Hitems|]. simpl. intros. lia.
  - unfold ids_below_next.
    rewrite reserve_next_order_id, reserve_orders, reserve_order_items. simpl.
    split.
    + intros j Hj. rewrite lookup_insert_ne by lia. apply Hord. lia.
    + apply Forall_app. split.
      * eapply Forall_impl; [exact Hitems|]. simpl. intros. lia.
      * rewrite Forall_forall. intros oi Hoi.
        apply list_elem_of_In, in_map_iff in Hoi as (v & <- & _). simpl. lia.
Qed.

Lemma updateOrderStatus_keeps_ids_below_next f t id st :
  ids_below_next st -> ids_below_next (updateOrderStatus f t id st).2.
Proof.
  intros [Hord Hitems].
  destruct (updateOrderStatus_inv f t id st) as [[_ ->]|(o & Ho & _ & ->)]; [done|].
  split; simpl; [|done]. intros j Hj.
  rewrite lookup_insert_ne; [by apply Hord|].
  intros <-. rewrite (Hord id Hj) in Ho. done.
Qed.

Lemma cancelOrder_keeps_ids_below_next f u id st :
  ids_below_next st -> ids_below_next (cancelOrder f u id st).2.
Proof.
  intros [Hord Hitems].
  destruct (cancelOrder_inv f u id st) as [[_ ->]|(o & Ho & _ & _ & ->)]; [done|].
  assert (Hins : forall j, next_order_id st <= j ->
                   <[id := set_status "cancelled" o]> (orders st) !! j = None).
  { intros j Hj. rewrite lookup_insert_ne; [by apply Hord|].
    intros <-. rewrite (Hord id Hj) in Ho. done. }
  by unfold ids_below_next.
Qed.

(** X25. The four routes keep the order ids in order: when no order and no
    order item carries an id at or above the next id to hand out, this is
    still so after the request, so that a new order never takes the id of an
    order or of order items that are already stored. *)
Theorem dispatch_keeps_ids_below_next f u req st :
  ids_below_next st -> ids_below_next (dispatch f u req st).2.
Proof.
  intros Hids. destruct req as [id|items|id|id t]; simpl.
  - by rewrite getOrderById_keeps_store.
  - by apply createOrder_keeps_ids_below_next.
  - by apply cancelOrder_keeps_ids_below_next.
  - unfold put_order_status. destruct (authorize _ _); [done|].
    by apply updateOrderStatus_keeps_ids_below_next.
Qed.

Lemma ids_below_next_shop : ids_below_next shop.
Proof. split; [intros j _; apply lookup_empty | constructor]. Qed.

Lemma dispatch_keeps_ids_below_next_witness :
  ids_below_next
    (dispatch reliable alice (PostOrder [mk_req_item 1 None 3 None]) shop).2.
Proof.
  apply (dispatch_keeps_ids_below_next reliable alice
           (PostOrder [mk_req_item 1 None 3 None]) shop).
  exact ids_below_next_shop.
Defined.

(** ** A customer and the orders of other users *)

Lemma put_order_status_foreign f u t id st :
  role u <> "admin" -> put_order_status f u t id st = ((403, Forbidden), st).
Proof.
  intros Hrole. unfold put_order_status, authorize, includes. simpl.
  apply String.eqb_neq in Hrole. by rewrite Hrole.
Qed.

Lemma ids_below_next_shop_after_order : ids_below_next shop_after_order.
Proof. apply createOrder_keeps_ids_below_next, ids_below_next_shop. Qed.

(** X26. A caller who is not an admin cannot change an order that belongs
    to somebody else, through any of the four routes and whatever the store
    does: the header of such an order (owner, total and status) and its items
    are after the request what they were before. *)
Theorem customer_cannot_touch_foreign_orders f u req st j o :
  ids_below_next st ->
  role u <> "admin" ->
  orders st !! j = Some o -> user_id o <> u_user_id u ->
  orders (dispatch f u req st).2 !! j = Some o
  /\ items_of_order (dispatch f u req st).2 j = items_of_order st j.
Proof.
  intros [Hord _] Hrole Ho Hown. destruct req as [id|items|id|id t]; simpl.
  - by rewrite getOrderById_keeps_store.
  - assert (Hj : j <> next_order_id st).
    { intros ->. rewrite Hord in Ho by lia. done. }
    createOrder_paths f st items Hloop; simpl; try done.
    + by rewrite lookup_insert_ne.
    + unfold set_orders. simpl. by rewrite lookup_delete_ne, lookup_insert_ne.
    + rewrite reserve_orders. simpl. rewrite lookup_insert_ne by done.
      split; [done|]. unfold items_of_order.
      rewrite reserve_order_items. simpl. rewrite filter_app.
      rewrite (filter_order_id_fresh j (map _ verified)), app_nil_r; [done|].
      rewrite Forall_forall. intros oi Hoi.
      apply list_elem_of_In, in_map_iff in Hoi as (v & <- & _). simpl. congruence.
  - destruct (cancelOrder_inv f u id st) as [[_ ->]|(o' & Ho' & Hwho & _ & ->)];
      [done|].
    destruct Hwho as [?|Hmine]; [done|].
    assert (Hj : id <> j).
    { intros ->. rewrite Ho in Ho'. injection Ho' as <-. done. }
    simpl. by rewrite lookup_insert_ne.
  - by rewrite put_order_status_foreign.
Qed.

Lemma customer_cannot_touch_foreign_orders_witness :
  orders (dispatch reliable bob (PostCancel 1) shop_after_order).2 !! 1
  = Some (mk_order 7 300 "pending")
  /\ items_of_order (dispatch reliable bob (PostCancel 1) shop_after_order).2 1
     = items_of_order shop_after_order 1.
Proof.
  apply (customer_cannot_touch_foreign_orders reliable bob (PostCancel 1)
           shop_after_order 1 (mk_order 7 300 "pending")).
  - exact ids_below_next_shop_after_order.
  - discriminate.
  - reflexivity.
  - discriminate.
Defined.

(** ** Paging through orders *)

Lemma usize_nb_digits s :
  DecimalPos.Unsigned.usize s = N.of_nat (Decimal.nb_digits s).
Proof.
  induction s; simpl DecimalPos.Unsigned.usize;
    [done | change (Decimal.nb_digits (_ s)) with (S (Decimal.nb_digits s));
            rewrite IHs; lia ..].
Qed.

Lemma decimal_rev_app u s :
  Decimal.rev (Decimal.app u s) = Decimal.revapp s (Decimal.rev u).
Proof.
  apply DecimalFacts.to_list_inj.
  rewrite DecimalFacts.rev_spec, DecimalFacts.app_spec, DecimalFacts.revapp_spec,
    DecimalFacts.rev_spec.
  by rewrite rev_app_distr, rev_append_rev.
Qed.

(** The value of two strings of digits written one after the other. *)
Lemma to_number_app u s :
  to_number (Decimal.app u s)
  = to_number u * 10 ^ Z.of_nat (Decimal.nb_digits s) + to_number s.
Proof.
  unfold to_number, Z.of_uint.
  rewrite !DecimalPos.Unsigned.of_uint_alt, decimal_rev_app,
    DecimalPos.Unsigned.of_lu_revapp, usize_nb_digits.
  rewrite N2Z.inj_add, N2Z.inj_mul, N2Z.inj_pow, nat_N_Z. simpl (Z.of_N 10). lia.
Qed.

Lemma of_lu_bound d :
  (DecimalPos.Unsigned.of_lu d < 10 ^ DecimalPos.Unsigned.usize d)%N.
Proof.
  induction d; simpl DecimalPos.Unsigned.of_lu; simpl DecimalPos.Unsigned.usize;
    [done | rewrite N.pow_succ_r'; lia ..].
Qed.

(** A string of [n] digits is worth less than [10^n]. *)
Lemma to_number_bound s :
  0 <= to_number s < 10 ^ Z.of_nat (Decimal.nb_digits s).
Proof.
  unfold to_number, Z.of_uint. rewrite DecimalPos.Unsigned.of_uint_alt.
  pose proof (of_lu_bound (Decimal.rev s)) as Hb.
  rewrite usize_nb_digits, DecimalFacts.nb_digits_rev in Hb.
  apply N2Z.inj_lt in Hb. rewrite N2Z.inj_pow, nat_N_Z in Hb.
  simpl (Z.of_N 10) in Hb. lia.
Qed.

Lemma range_end_of_string offset s :
  0 <= offset ->
  range_end offset (Some s)
  = offset * 10 ^ Z.of_nat (Decimal.nb_digits s) + to_number s - 1.
Proof.
  intros Hoff. unfold range_end.
  pose proof (DecimalZ.of_to offset) as Hback.
  destruct offset as [|p|p]; [| |lia]; simpl Z.to_int in *; simpl Decimal.app_int;
    simpl Z.of_int in *;
    change (Z.of_uint ?d) with (to_number d) in *;
    by rewrite to_number_app, Hback.
Qed.

(** X28. The window asked of the store by getAllOrders and getUserOrders.
    Without a limit in the query the window of page [p] is rows [10(p-1)] to
    [10(p-1)+9].  With a limit in the query the upper bound is not
    [offset + limit - 1]: the limit is a string, so it is appended to the
    digits of the offset.  On page 1 this still gives rows [0] to
    [limit - 1]; from page 2 on the window holds at least ten times as many
    rows as the limit.  All numbers involved stay below 2^53. *)
Theorem range_window_with_query_limit page s :
  1 <= from_option to_number 1 page <= 1000 ->
  (1 <= Decimal.nb_digits s <= 6)%nat ->
  range_window page None
    = (10 * (from_option to_number 1 page - 1),
       10 * (from_option to_number 1 page - 1) + 9)
  /\ range_window page (Some s)
     = ((from_option to_number 1 page - 1) * to_number s,
        (from_option to_number 1 page - 1) * to_number s
          * 10 ^ Z.of_nat (Decimal.nb_digits s) + to_number s - 1)
  /\ (from_option to_number 1 page = 1 ->
        range_window page (Some s) = (0, to_number s - 1))
  /\ (2 <= from_option to_number 1 page -> 1 <= to_number s ->
        10 * to_number s
        <= (range_window page (Some s)).2 - (range_window page (Some s)).1 + 1)
  /\ 0 <= (range_window page (Some s)).2 + 1 < 2 ^ 53.
Proof.
  intros Hp Hn. set (p := from_option to_number 1 page) in *.
  pose proof (to_number_bound s) as Hs.
  assert (Hwin : range_window page (Some s)
                 = ((p - 1) * to_number s,
                    (p - 1) * to_number s * 10 ^ Z.of_nat (Decimal.nb_digits s)
                    + to_number s - 1)).
  { unfold range_window, page_offset. simpl from_option. fold p.
    rewrite range_end_of_string by nia. done. }
  split; [unfold range_window, page_offset, range_end; simpl; fold p; f_equal; lia|].
  split; [exact Hwin|]. rewrite Hwin. simpl.
  assert (Hpow : 10 <= 10 ^ Z.of_nat (Decimal.nb_digits s) <= 10 ^ 6).
  { split.
    - change 10 with (10 ^ 1) at 1. apply Z.pow_le_mono_r; lia.
    - apply Z.pow_le_mono_r; lia. }
  split; [|split].
  - intros ->. f_equal; lia.
  - intros Hp2 Hs1. nia.
  - split; [nia|].
    assert ((p - 1) * to_number s * 10 ^ Z.of_nat (Decimal.nb_digits s)
            <= 999 * 10 ^ 6 * 10 ^ 6) by nia.
    assert (999 * 10 ^ 6 * 10 ^ 6 + 10 ^ 6 < 2 ^ 53) by (vm_compute; done).
    lia.
Qed.

Lemma range_window_with_query_limit_witness :
  range_window (Some (Decimal.D2 Decimal.Nil))
               (Some (Decimal.D1 (Decimal.D0 Decimal.Nil))) = (10, 1009)
  /\ range_window (Some (Decimal.D2 Decimal.Nil)) None = (10, 19).
Proof.
  destruct (range_window_with_query_limit (Some (Decimal.D2 Decimal.Nil))
              (Decimal.D1 (Decimal.D0 Decimal.Nil))) as (Hdefault & Hquery & _);
    [vm_compute; split; discriminate | simpl; lia |].
  split; [rewrite Hquery | rewrite Hdefault]; reflexivity.
Defined.

(** * The stock counters under every operation *)

Lemma cancelOrder_keeps_stock f u id st :
  products (cancelOrder f u id st).2 = products st
  /\ product_sizes (cancelOrder f u id st).2 = product_sizes st.
Proof.
  by destruct (cancelOrder_inv f u id st) as [[_ ->]|(o & _ & _ & _ & ->)].
Qed.

(** The cart handlers write the cart table only. *)
Lemma getCartItems_keeps_db cf u d : (getCartItems cf u d).2 = d.
Proof.
  unfold getCartItems. destruct (cart_select_fails cf); [done|].
  by destruct (mapM _ _).
Qed.

Lemma getCartCount_keeps_db cf u d : (getCartCount cf u d).2 = d.
Proof. unfold getCartCount. by destruct (cart_select_fails cf). Qed.

Lemma getCartSummary_keeps_db cf u d : (getCartSummary cf u d).2 = d.
Proof.
  unfold getCartSummary. destruct (cart_select_fails cf); [done|].
  by destruct (mapM _ _).
Qed.

Lemma getCartCheckout_keeps_db f cf u d : (getCartCheckout f cf u d).2 = d.
Proof.
  unfold getCartCheckout. destruct (cart_select_fails cf); [done|].
  destruct (cart_of _ _); [done|].
  destruct (mapM (stock_issues_of f d) _) as [pushed|]; [|done].
  destruct (concat pushed); [|done].
  by destruct (mapM (process_item d) _).
Qed.

Lemma addToCart_keeps_shop_tables f cf u r d :
  shop_tables (addToCart f cf u r d).2 = shop_tables d.
Proof.
  unfold addToCart. destruct (negb (addToCartValidation r)); [done|].
  destruct (select_product _ _ _) as [p|]; [|done].
  destruct (check_stock _ _ _ _); [done|].
  destruct (cart_select_fails cf); [done|].
  destruct (existing_rows _ _ _ _) as [|e [|e' rows]]; [| |done].
  - by destruct (cart_insert_fails cf).
  - destruct (recheck_stock _ _ _ _ _); [done|].
    by destruct (cart_update_fails cf).
Qed.

Lemma updateCartItem_keeps_shop_tables f cf u id q d :
  shop_tables (updateCartItem f cf u id q d).2 = shop_tables d.
Proof.
  unfold updateCartItem. destruct (negb (updateCartValidation q)); [done|].
  destruct (select_cart_item _ _ _ _) as [cartItem|]; [|done].
  destruct (if truthy (ci_size cartItem) then _ else _); [done|].
  destruct (cart_update_fails cf); [done|].
  by destruct (joined_product d cartItem).
Qed.

Lemma removeFromCart_keeps_shop_tables cf u id d :
  shop_tables (removeFromCart cf u id d).2 = shop_tables d.
Proof.
  unfold removeFromCart. destruct (select_cart_item _ _ _ _); [|done].
  by destruct (cart_delete_fails cf).
Qed.

Lemma clearCart_keeps_shop_tables cf u d :
  shop_tables (clearCart cf u d).2 = shop_tables d.
Proof. unfold clearCart. by destruct (cart_delete_fails cf). Qed.

Lemma run_shop_op_keeps_stock f cf u op d :
  products (shop_tables (run_shop_op f cf u op d)) = products (shop_tables d)
  /\ product_sizes (shop_tables (run_shop_op f cf u op d))
     = product_sizes (shop_tables d).
Proof.
  destruct op as [items|id|t id| |r|id q|id| | | |]; simpl.
  - apply createOrder_keeps_stock.
  - apply cancelOrder_keeps_stock.
  - apply updateOrderStatus_keeps_stock.
  - by rewrite getCartItems_keeps_db.
  - by rewrite addToCart_keeps_shop_tables.
  - by rewrite updateCartItem_keeps_shop_tables.
  - by rewrite removeFromCart_keeps_shop_tables.
  - by rewrite clearCart_keeps_shop_tables.
  - by rewrite getCartCount_keeps_db.
  - by rewrite getCartSummary_keeps_db.
  - by rewrite getCartCheckout_keeps_db.
Qed.

Lemma run_shop_ops_keeps_stock steps d :
  products (shop_tables (run_shop_ops steps d)) = products (shop_tables d)
  /\ product_sizes (shop_tables (run_shop_ops steps d)) = product_sizes (shop_tables d).
Proof.
  revert d. induction steps as [|[[[f cf] u] op] steps IH]; intros d; [done|].
  unfold run_shop_ops. simpl. fold (run_shop_ops steps (run_shop_op f cf u op d)).
  destruct (IH (run_shop_op f cf u op d)) as [-> ->].
  apply run_shop_op_keeps_stock.
Qed.

(** C5. Requests to [createOrder], [cancelOrder], [updateOrderStatus] and the
    eight cart handlers, served one after the other by whatever callers and
    under whatever answers of the store: when no stock counter, general or
    per-size, is below zero before the first request, none is below zero after
    the last.  The counters are in fact the ones the run started with: none of
    these requests changes a stock row. *)
Theorem operations_keep_stock_nonneg
    (steps : list (faults * cart_faults * user * shop_op)) (d : db) :
  stock_nonneg (shop_tables d) ->
  stock_nonneg (shop_tables (run_shop_ops steps d))
  /\ products (shop_tables (run_shop_ops steps d)) = products (shop_tables d)
  /\ product_sizes (shop_tables (run_shop_ops steps d)) = product_sizes (shop_tables d).
Proof.
  intros [Hp Hs]. destruct (run_shop_ops_keeps_stock steps d) as [Ep Es].
  split; [|done]. unfold stock_nonneg. by rewrite Ep, Es.
Qed.

Lemma operations_keep_stock_nonneg_witness :
  stock_nonneg
    (shop_tables
       (run_shop_ops
          [(reliable, cart_reliable, alice,
            CreateOrder [mk_req_item 1 None 3 None; mk_req_item 1 None 3 None]);
           (reliable, cart_reliable, bob, AddToCart (mk_cart_req 2 2 (Some "M")));
           (reliable, cart_reliable, bob, UpdateCartItem 1 1);
           (reliable, cart_reliable, alice, CancelOrder 1);
           (reliable, cart_reliable, root, UpdateOrderStatus "processing" 1);
           (reliable, cart_reliable, bob, ClearCart)]
          shop_db))
  /\ stock <$> products
       (shop_tables
          (run_shop_ops
             [(reliable, cart_reliable, alice,
               CreateOrder [mk_req_item 1 None 3 None; mk_req_item 1 None 3 None]);
              (reliable, cart_reliable, bob, AddToCart (mk_cart_req 2 2 (Some "M")));
              (reliable, cart_reliable, bob, UpdateCartItem 1 1);
              (reliable, cart_reliable, alice, CancelOrder 1);
              (reliable, cart_reliable, root, UpdateOrderStatus "processing" 1);
              (reliable, cart_reliable, bob, ClearCart)]
             shop_db)) !! 1
     = Some 5.
Proof.
  destruct (operations_keep_stock_nonneg
           [(reliable, cart_reliable, alice,
             CreateOrder [mk_req_item 1 None 3 None; mk_req_item 1 None 3 None]);
            (reliable, cart_reliable, bob, AddToCart (mk_cart_req 2 2 (Some "M")));
            (reliable, cart_reliable, bob, UpdateCartItem 1 1);
            (reliable, cart_reliable, alice, CancelOrder 1);
            (reliable, cart_reliable, root, UpdateOrderStatus "processing" 1);
            (reliable, cart_reliable, bob, ClearCart)]
           shop_db) as (Hnonneg & Hproducts & _).
  - split; apply (bool_decide_unpack _); vm_compute; exact I.
  - split; [exact Hnonneg|]. rewrite Hproducts. reflexivity.
Defined.

(** * Properties of the cart handlers *)

Lemma select_cart_item_owner cf uid id d e :
  select_cart_item cf uid id d = Some e ->
  e ∈ cart_items d /\ item_id e = id /\ ci_user_id e = uid.
Proof.
  unfold select_cart_item. destruct (cart_select_fails cf); [done|].
  destruct (filter _ _) as [|a [|b l]] eqn:Hrows; [done| |done].
  intros [= ->].
  assert (He : e ∈ filter (fun it => item_id it = id /\ ci_user_id it = uid)
                          (cart_items d)) by (rewrite Hrows; apply list_elem_of_here).
  apply list_elem_of_filter in He as [[? ?] ?]. done.
Qed.

Lemma existing_row_owner cf uid r d e rows :
  existing_rows cf uid r d = e :: rows ->
  e ∈ cart_items d /\ ci_user_id e = uid /\ ci_product_id e = cr_product_id r.
Proof.
  unfold existing_rows. intros Hrows.
  assert (He : e ∈ filter
            (fun it => ci_user_id it = uid /\ ci_product_id it = cr_product_id r
                       /\ size_matches cf (size_or_null (cr_size r)) (ci_size it) = true)
            (cart_items d)) by (rewrite Hrows; apply list_elem_of_here).
  apply list_elem_of_filter in He as [(? & ? & ?) ?]. done.
Qed.






(** X31. A cart item of somebody else is not found: when no row with the
    given id belongs to the caller, an update (of a valid quantity) and a
    removal of that id are both answered 404 and change nothing. *)
Theorem foreign_cart_item_not_found f cf u id quantity d :
  Forall (fun it => item_id it = id -> ci_user_id it <> u_user_id u) (cart_items d) ->
  1 <= quantity ->
  updateCartItem f cf u id quantity d = ((404, CartItemNotFound), d)
  /\ removeFromCart cf u id d = ((404, CartItemNotFound), d).
Proof.
  intros Hforeign Hq.
  assert (Hnone : select_cart_item cf (u_user_id u) id d = None).
  { destruct (select_cart_item cf (u_user_id u) id d) as [e|] eqn:Hsel; [|done].
    apply select_cart_item_owner in Hsel as (He & Hid & Hu).
    rewrite Forall_forall in Hforeign. by destruct (Hforeign e He Hid). }
  unfold updateCartItem, removeFromCart, updateCartValidation. rewrite Hnone.
  by assert ((1 <=? quantity) = true) as -> by by apply Z.leb_le.
Qed.

Lemma foreign_cart_item_not_found_witness :
  updateCartItem reliable cart_reliable alice 1 1 shop_with_carts
  = ((404, CartItemNotFound), shop_with_carts)
  /\ removeFromCart cart_reliable alice 1 shop_with_carts
     = ((404, CartItemNotFound), shop_with_carts).
Proof.
  apply (foreign_cart_item_not_found reliable cart_reliable alice 1 1 shop_with_carts).
  - apply (bool_decide_unpack _). vm_compute. exact I.
  - lia.
Defined.

(** ** The carts of the other users *)

Lemma item_id_unique l a b :
  NoDup (map item_id l) -> a ∈ l -> b ∈ l -> item_id a = item_id b -> a = b.
Proof.
  induction l as [|x l IH]; simpl; [by intros _ ?%elem_of_nil|].
  rewrite NoDup_cons, !elem_of_cons. intros [Hx Hl] [->|Ha] [->|Hb] Hid; [done| | |by apply IH].
  - destruct Hx. rewrite Hid. by apply list_elem_of_In, in_map, list_elem_of_In.
  - destruct Hx. rewrite <- Hid. by apply list_elem_of_In, in_map, list_elem_of_In.
Qed.

Lemma cart_rows_update_quantity v id q l :
  Forall (fun it => item_id it = id -> ci_user_id it <> v) l ->
  filter (fun it => ci_user_id it = v) (update_quantity id q l)
  = filter (fun it => ci_user_id it = v) l.
Proof.
  unfold update_quantity. induction 1 as [|a l Ha _ IH]; [done|]. simpl.
  case_bool_decide as Hid.
  - rewrite !filter_cons_False; [done|by apply Ha|simpl; by apply Ha].
  - destruct (decide (ci_user_id a = v)).
    + rewrite !filter_cons_True by done. by rewrite IH.
    + rewrite !filter_cons_False by done. done.
Qed.

Lemma cart_rows_remove v id l :
  Forall (fun it => item_id it = id -> ci_user_id it <> v) l ->
  filter (fun it => ci_user_id it = v) (filter (fun it => item_id it <> id) l)
  = filter (fun it => ci_user_id it = v) l.
Proof.
  induction 1 as [|a l Ha _ IH]; [done|].
  destruct (decide (item_id a = id)) as [Hid|Hid].
  - rewrite (filter_cons_False (fun it => item_id it <> id)) by tauto.
    rewrite IH. by rewrite filter_cons_False by by apply Ha.
  - rewrite (filter_cons_True (fun it => item_id it <> id)) by done.
    destruct (decide (ci_user_id a = v)).
    + rewrite !filter_cons_True by done. by rewrite IH.
    + rewrite !filter_cons_False by done. done.
Qed.

Lemma cart_rows_clear v uid (l : list cart_item) :
  uid <> v ->
  filter (fun it => ci_user_id it = v) (filter (fun it => ci_user_id it <> uid) l)
  = filter (fun it => ci_user_id it = v) l.
Proof.
  intros Hv. induction l as [|a l IH]; [done|].
  destruct (decide (ci_user_id a = uid)) as [Hu|Hu].
  - rewrite (filter_cons_False (fun it => ci_user_id it <> uid)) by tauto.
    rewrite IH. by rewrite filter_cons_False by congruence.
  - rewrite (filter_cons_True (fun it => ci_user_id it <> uid)) by done.
    destruct (decide (ci_user_id a = v)).
    + rewrite !filter_cons_True by done. by rewrite IH.
    + rewrite !filter_cons_False by done. done.
Qed.

(** With ids that are pairwise different, the rows that carry the id of a
    row of [uid] are rows of [uid]. *)
Lemma rows_of_id_belong_to_owner d e uid v :
  NoDup (map item_id (cart_items d)) ->
  e ∈ cart_items d -> ci_user_id e = uid -> uid <> v ->
  Forall (fun it => item_id it = item_id e -> ci_user_id it <> v) (cart_items d).
Proof.
  intros Hnd He Hu Hv. rewrite Forall_forall. intros it Hit Hid.
  rewrite (item_id_unique _ it e Hnd Hit He Hid). congruence.
Qed.

Lemma run_shop_op_keeps_other_carts f cf u op d v :
  NoDup (map item_id (cart_items d)) -> u_user_id u <> v ->
  cart_of v (run_shop_op f cf u op d) = cart_of v d.
Proof.
  intros Hnd Hv.
  destruct op as [items|id|t id| |r|id q|id| | | |]; simpl; try done.
  - by rewrite getCartItems_keeps_db.
  - unfold addToCart. destruct (negb (addToCartValidation r)); [done|].
    destruct (select_product _ _ _) as [p|]; [|done].
    destruct (check_stock _ _ _ _); [done|].
    destruct (cart_select_fails cf); [done|].
    destruct (existing_rows _ _ _ _) as [|e [|e' rows]] eqn:Hrows; [| |done].
    + destruct (cart_insert_fails cf); [done|]. unfold cart_of. simpl.
      by rewrite filter_cons_False.
    + destruct (existing_row_owner _ _ _ _ _ _ Hrows) as (He & Hu & _).
      destruct (recheck_stock _ _ _ _ _); [done|].
      destruct (cart_update_fails cf); [done|]. unfold cart_of. simpl.
      apply cart_rows_update_quantity. by eapply rows_of_id_belong_to_owner.
  - unfold updateCartItem. destruct (negb (updateCartValidation q)); [done|].
    destruct (select_cart_item _ _ _ _) as [cartItem|] eqn:Hsel; [|done].
    apply select_cart_item_owner in Hsel as (He & <- & Hu).
    assert (Hupd : cart_of v (set_cart (update_quantity (item_id cartItem) q
                                          (cart_items d)) d) = cart_of v d).
    { unfold cart_of. simpl. apply cart_rows_update_quantity.
      by eapply rows_of_id_belong_to_owner. }
    destruct (if truthy (ci_size cartItem) then _ else _); [done|].
    destruct (cart_update_fails cf); [done|].
    by destruct (joined_product d cartItem).
  - unfold removeFromCart.
    destruct (select_cart_item _ _ _ _) as [cartItem|] eqn:Hsel; [|done].
    apply select_cart_item_owner in Hsel as (He & <- & Hu).
    destruct (cart_delete_fails cf); [done|]. unfold cart_of. simpl.
    apply cart_rows_remove. by eapply rows_of_id_belong_to_owner.
  - unfold clearCart. destruct (cart_delete_fails cf); [done|].
    unfold cart_of. simpl. by apply cart_rows_clear.
  - by rewrite getCartCount_keeps_db.
  - by rewrite getCartSummary_keeps_db.
  - by rewrite getCartCheckout_keeps_db.
Qed.

Lemma update_quantity_item_ids id q l :
  map item_id (update_quantity id q l) = map item_id l.
Proof.
  unfold update_quantity. induction l as [|a l IH]; [done|]. simpl.
  rewrite IH. by case_bool_decide.
Qed.

Lemma item_ids_fresh_update id q d :
  item_ids_fresh d -> item_ids_fresh (set_cart (update_quantity id q (cart_items d)) d).
Proof.
  intros [Hnd Hlt]. split; simpl.
  - by rewrite update_quantity_item_ids.
  - unfold update_quantity. rewrite Forall_forall. intros it Hit.
    apply list_elem_of_In, in_map_iff in Hit as (a & <- & Ha).
    rewrite Forall_forall in Hlt. specialize (Hlt a (proj2 (list_elem_of_In _ _) Ha)).
    by case_bool_decide.
Qed.

Lemma item_ids_fresh_filter (P : cart_item -> Prop) `{!forall it, Decision (P it)} d :
  item_ids_fresh d -> item_ids_fresh (set_cart (filter P (cart_items d)) d).
Proof.
  intros [Hnd Hlt]. split; simpl.
  - clear Hlt. induction (cart_items d) as [|a l IH]; [done|].
    simpl in Hnd. apply NoDup_cons in Hnd as [Ha Hl].
    destruct (decide (P a)).
    + rewrite filter_cons_True by done. simpl. apply NoDup_cons. split; [|by apply IH].
      intros Hin. apply Ha.
      apply list_elem_of_In, in_map_iff in Hin as (b & Hb & Hbl).
      apply list_elem_of_In, in_map_iff. exists b. split; [done|].
      apply list_elem_of_In. apply list_elem_of_In in Hbl.
      by apply list_elem_of_filter in Hbl as [_ ?].
    + rewrite filter_cons_False by done. by apply IH.
  - rewrite Forall_forall in Hlt |- *. intros it Hit.
    apply list_elem_of_filter in Hit as [_ Hit]. by apply Hlt.
Qed.

Lemma run_shop_op_keeps_item_ids f cf u op d :
  item_ids_fresh d -> item_ids_fresh (run_shop_op f cf u op d).
Proof.
  intros Hfresh.
  destruct op as [items|id|t id| |r|id q|id| | | |]; simpl; try done.
  - by rewrite getCartItems_keeps_db.
  - unfold addToCart. destruct (negb (addToCartValidation r)); [done|].
    destruct (select_product _ _ _) as [p|]; [|done].
    destruct (check_stock _ _ _ _); [done|].
    destruct (cart_select_fails cf); [done|].
    destruct (existing_rows _ _ _ _) as [|e [|e' rows]]; [| |done].
    + destruct (cart_insert_fails cf); [done|].
      destruct Hfresh as [Hnd Hlt]. split; simpl.
      * apply NoDup_cons. split; [|done]. intros Hin.
        apply list_elem_of_In, in_map_iff in Hin as (b & Hb & Hbl).
        rewrite Forall_forall in Hlt.
        specialize (Hlt b (proj2 (list_elem_of_In _ _) Hbl)). lia.
      * constructor; simpl; [lia|].
        eapply Forall_impl; [exact Hlt|]. simpl. intros. lia.
    + destruct (recheck_stock _ _ _ _ _); [done|].
      destruct (cart_update_fails cf); [done|]. by apply item_ids_fresh_update.
  - unfold updateCartItem. destruct (negb (updateCartValidation q)); [done|].
    destruct (select_cart_item _ _ _ _) as [cartItem|]; [|done].
    destruct (if truthy (ci_size cartItem) then _ else _); [done|].
    destruct (cart_update_fails cf); [done|].
    destruct (joined_product d cartItem); by apply item_ids_fresh_update.
  - unfold removeFromCart. destruct (select_cart_item _ _ _ _); [|done].
    destruct (cart_delete_fails cf); [done|]. by apply item_ids_fresh_filter.
  - unfold clearCart. destruct (cart_delete_fails cf); [done|].
    by apply item_ids_fresh_filter.
  - by rewrite getCartCount_keeps_db.
  - by rewrite getCartSummary_keeps_db.
  - by rewrite getCartCheckout_keeps_db.
Qed.

(** X29. Nobody changes the cart of somebody else.  In a cart table whose
    item ids are pairwise different and below the next id, the rows of a
    user are the same, and in the same order, after any sequence of requests
    to the order and cart handlers that other users make, whatever the store
    answers. *)
Theorem other_users_leave_cart_alone
    (steps : list (faults * cart_faults * user * shop_op)) (d : db) (v : Z) :
  item_ids_fresh d ->
  Forall (fun step => u_user_id step.1.2 <> v) steps ->
  cart_of v (run_shop_ops steps d) = cart_of v d.
Proof.
  intros Hfresh Hsteps. revert d Hfresh.
  induction Hsteps as [|[[[f cf] u] op] steps Hu _ IH]; intros d Hfresh; [done|].
  unfold run_shop_ops. simpl. fold (run_shop_ops steps (run_shop_op f cf u op d)).
  rewrite IH by by apply run_shop_op_keeps_item_ids.
  apply run_shop_op_keeps_other_carts; [apply Hfresh | exact Hu].
Qed.

Lemma other_users_leave_cart_alone_witness :
  cart_of 7
    (run_shop_ops
       [(reliable, cart_reliable, bob, AddToCart (mk_cart_req 2 1 (Some "M")));
        (reliable, cart_reliable, bob, UpdateCartItem 2 5);
        (reliable, cart_reliable, bob, RemoveFromCart 2);
        (reliable, cart_reliable, root, AddToCart (mk_cart_req 2 1 (Some "M")));
        (reliable, cart_reliable, bob, ClearCart)]
       shop_with_carts)
  = [mk_cart_item 2 7 2 1 (Some "M")].
Proof.
  rewrite (other_users_leave_cart_alone
             [(reliable, cart_reliable, bob, AddToCart (mk_cart_req 2 1 (Some "M")));
              (reliable, cart_reliable, bob, UpdateCartItem 2 5);
              (reliable, cart_reliable, bob, RemoveFromCart 2);
              (reliable, cart_reliable, root, AddToCart (mk_cart_req 2 1 (Some "M")));
              (reliable, cart_reliable, bob, ClearCart)]
             shop_with_carts 7).
  - reflexivity.
  - split; apply (bool_decide_unpack _); vm_compute; exact I.
  - apply (bool_decide_unpack _). vm_compute. exact I.
Defined.
